(** * bislericli: checkout orchestration, page extraction and profile paths

    A shallow embedding of the Go sources of bislericli
    (cmd/bislericli/main.go, internal/bisleri/{client,checkout,parser}.go,
    internal/config/config.go) and the properties of its specification.

    Conventions.
    - A Go [string] is a byte string: Rocq's [string] (a list of [ascii]).
      The rupee sign is its three UTF-8 bytes.
    - Case mapping and white space ([strings.ToLower], [strings.EqualFold],
      [strings.TrimSpace]) are modelled on ASCII; bytes above 0x7f are left
      alone.
    - Go's [int] is [Z] (no value in this program comes near 2^63).
    - [float64] is [spec_float] at precision 53 and emax 1024.
    - A Go [error] is the inductive [error]; [nil] is [None]. *)

From Stdlib Require Import String Ascii List ZArith Lia Bool DecimalString.
From Stdlib Require Import Floats.SpecFloat.
From Stdlib Require DecimalPos.
Import ListNotations.
Open Scope string_scope.
Open Scope Z_scope.

(* ================================================================== *)
(** * Go's [strings] package on byte strings *)

Module strings.

Definition isUpper (c : ascii) : bool :=
  let n := nat_of_ascii c in (Nat.leb 65 n && Nat.leb n 90)%bool.

Definition lowerByte (c : ascii) : ascii :=
  if isUpper c then ascii_of_nat (nat_of_ascii c + 32) else c.

Fixpoint ToLower (s : string) : string :=
  match s with
  | "" => ""
  | String c r => String (lowerByte c) (ToLower r)
  end.

Definition EqualFold (s t : string) : bool :=
  String.eqb (ToLower s) (ToLower t).

Definition HasPrefix (s p : string) : bool := String.prefix p s.

Fixpoint Contains (s sub : string) : bool :=
  (String.prefix sub s ||
   match s with
   | "" => false
   | String _ r => Contains r sub
   end)%bool.

Fixpoint memByte (c : ascii) (chars : string) : bool :=
  match chars with
  | "" => false
  | String d r => (Ascii.eqb c d || memByte c r)%bool
  end.

Fixpoint ContainsAny (s chars : string) : bool :=
  match s with
  | "" => false
  | String c r => (memByte c chars || ContainsAny r chars)%bool
  end.

(** ASCII white space: tab, newline, vertical tab, form feed, carriage
    return, space. *)
Definition isSpace (c : ascii) : bool :=
  let n := nat_of_ascii c in
  ((Nat.leb 9 n && Nat.leb n 13) || Nat.eqb n 32)%bool.

Fixpoint TrimLeftSpace (s : string) : string :=
  match s with
  | "" => ""
  | String c r => if isSpace c then TrimLeftSpace r else s
  end.

(** Drops the trailing white space: a character is kept when it is not a
    space or something is kept after it. *)
Fixpoint TrimRightSpace (s : string) : string :=
  match s with
  | "" => ""
  | String c r =>
      match TrimRightSpace r with
      | "" => if isSpace c then "" else String c ""
      | r' => String c r'
      end
  end.

Definition TrimSpace (s : string) : string :=
  TrimRightSpace (TrimLeftSpace s).

Fixpoint dropN (n : nat) (s : string) : string :=
  match n, s with
  | O, _ => s
  | S k, String _ r => dropN k r
  | S _, "" => ""
  end.

Definition TrimPrefix (s p : string) : string :=
  if HasPrefix s p then dropN (String.length p) s else s.

(** [strings.ReplaceAll(s, string(c), "")] *)
Fixpoint removeByte (c : ascii) (s : string) : string :=
  match s with
  | "" => ""
  | String d r => if Ascii.eqb c d then removeByte c r else String d (removeByte c r)
  end.

(** [strings.Join] *)
Fixpoint Join (elems : list string) (sep : string) : string :=
  match elems with
  | [] => ""
  | [e] => e
  | e :: r => e ++ sep ++ Join r sep
  end.

(** [strings.Split(s, string(c))]: never empty, [Split "" = [""]]. *)
Fixpoint splitByte (c : ascii) (s : string) : list string :=
  match s with
  | "" => [""]
  | String d r =>
      if Ascii.eqb c d then "" :: splitByte c r
      else match splitByte c r with
           | [] => [String d ""]
           | h :: t => String d h :: t
           end
  end.

End strings.

(* ================================================================== *)
(** * Errors *)

(** [fmt.Sprintf("%d", n)] *)
Definition itoa (n : Z) : string := NilZero.string_of_int (Z.to_int n).

Inductive error : Type :=
| ErrNotAuthenticated
    (* bisleri.ErrNotAuthenticated, a sentinel compared with errors.Is *)
| errorString (msg : string)
    (* errors.New(msg), fmt.Errorf without %w *)
| wrapError (pre : string) (inner : error) (post : string)
    (* fmt.Errorf("pre %w post", inner) *)
| HTTPStatusError (Path Status : string) (StatusCode : Z)
    (* *bisleri.HTTPStatusError *)
| ctxErr.
    (* ctx.Err() once the run's deadline has passed *)

Fixpoint Error (e : error) : string :=
  match e with
  | ErrNotAuthenticated => "session expired; please run 'bislericli auth login'"
  | errorString m => m
  | wrapError pre inner post => pre ++ Error inner ++ post
  | HTTPStatusError p st _ => p ++ " request failed: " ++ st
  | ctxErr => "context deadline exceeded"
  end.

(** [errors.Is(err, bisleri.ErrNotAuthenticated)] *)
Fixpoint isNotAuthenticated (e : error) : bool :=
  match e with
  | ErrNotAuthenticated => true
  | wrapError _ inner _ => isNotAuthenticated inner
  | _ => false
  end.

(* ================================================================== *)
(** * Go's [path/filepath] on Unix, by path elements *)

Module filepath.

Definition Separator : ascii := "/"%char.

Definition rooted (path : string) : bool :=
  match path with
  | String c _ => Ascii.eqb c Separator
  | "" => false
  end.

(** One step of [Clean]'s loop over the elements between separators.
    [out] is the output so far, last element first.  An empty element and
    [.] are skipped; [..] removes the last real element, and where there is
    none it is kept when the path is not rooted and dropped when it is. *)
Definition cleanStep (isRooted : bool) (out : list string) (elem : string)
  : list string :=
  if String.eqb elem "" then out
  else if String.eqb elem "." then out
  else if String.eqb elem ".." then
    match out with
    | top :: rest =>
        if String.eqb top ".." then ".." :: out else rest
    | [] => if isRooted then [] else [".."]
    end
  else elem :: out.

Definition cleanElems (isRooted : bool) (elems : list string) : list string :=
  rev (fold_left (cleanStep isRooted) elems []).

Definition render (isRooted : bool) (elems : list string) : string :=
  if isRooted then String Separator (strings.Join elems "/")
  else match elems with
       | [] => "."
       | _ => strings.Join elems "/"
       end.

Definition Clean (path : string) : string :=
  if String.eqb path "" then "."
  else render (rooted path)
              (cleanElems (rooted path) (strings.splitByte Separator path)).

(** [filepath.Join]: the leading empty elements are dropped, the rest is
    joined with the separator and cleaned. *)
Fixpoint Join (elem : list string) : string :=
  match elem with
  | [] => ""
  | e :: r => if String.eqb e "" then Join r
              else Clean (strings.Join elem "/")
  end.

Fixpoint stripTrailingSlashes (s : string) : string :=
  match s with
  | "" => ""
  | String c r =>
      match stripTrailingSlashes r with
      | "" => if Ascii.eqb c Separator then "" else String c ""
      | r' => String c r'
      end
  end.

Definition Base (path : string) : string :=
  if String.eqb path "" then "."
  else
    let p := stripTrailingSlashes path in
    let last := List.last (strings.splitByte Separator p) "" in
    if String.eqb last "" then "/" else last.

End filepath.

(* ================================================================== *)
(** * internal/config/config.go *)

Module config.

Definition configFileName : string := "config.json".
Definition profilesDir : string := "profiles".

(** What the operating system answers: the directory [ConfigDir] resolves
    to (from [runtime.GOOS], [XDG_CONFIG_HOME] and the home directory), and
    the outcome of [os.MkdirAll] on a path. *)
Record OS : Type := {
  ConfigDir : string + error;
  MkdirAll : string -> option error
}.

Definition EnsureConfigDir (os : OS) : string + error :=
  match ConfigDir os with
  | inr err => inr err
  | inl dir =>
      match MkdirAll os dir with
      | Some err => inr err
      | None =>
          match MkdirAll os (filepath.Join [dir; profilesDir]) with
          | Some err => inr err
          | None => inl dir
          end
      end
  end.

Definition ProfilesDir (os : OS) : string + error :=
  match EnsureConfigDir os with
  | inr err => inr err
  | inl dir => inl (filepath.Join [dir; profilesDir])
  end.

Definition validateProfileName (name : string) : option error :=
  if (strings.Contains name ".." || strings.ContainsAny name "/\")%bool then
    Some (errorString "invalid profile name")
  else if negb (String.eqb (filepath.Base name) name) then
    Some (errorString "invalid profile name")
  else None.

Definition ProfilePath (os : OS) (name : string) : string + error :=
  if String.eqb name "" then inr (errorString "profile name required")
  else
    match validateProfileName name with
    | Some err => inr err
    | None =>
        match ProfilesDir os with
        | inr err => inr err
        | inl dir => inl (filepath.Join [dir; name ++ ".json"])
        end
    end.

End config.

(* ================================================================== *)
(** * Go's [strconv.ParseFloat] at 64 bits *)

Module strconv.

Definition float64 : Type := spec_float.
Definition prec : Z := 53.
Definition emax : Z := 1024.

Definition zero : float64 := S754_zero false.
Definition NaN : float64 := S754_nan.
Definition Inf (neg : bool) : float64 := S754_infinity neg.

(** Go's comparison operators on [float64]: every comparison with a NaN
    is false. *)
Definition ltb (x y : float64) : bool := SFltb x y.
Definition leb (x y : float64) : bool := SFleb x y.

Inductive NumError : Type := ErrSyntax | ErrRange.

Definition isDigit (c : ascii) : bool :=
  let n := nat_of_ascii c in (Nat.leb 48 n && Nat.leb n 57)%bool.

Definition isHexLetter (c : ascii) : bool :=
  let n := nat_of_ascii (strings.lowerByte c) in
  (Nat.leb 97 n && Nat.leb n 102)%bool.

Definition digitVal (c : ascii) : Z := Z.of_nat (nat_of_ascii c) - 48.
Definition hexLetterVal (c : ascii) : Z :=
  Z.of_nat (nat_of_ascii (strings.lowerByte c)) - 97 + 10.

(** [special]: an optionally signed [inf] or [infinity], or an unsigned
    [nan], in any case; the whole string has to be one of them. *)
Definition special (s : string) : option float64 :=
  let l := strings.ToLower s in
  if (String.eqb l "inf" || String.eqb l "+inf" ||
      String.eqb l "infinity" || String.eqb l "+infinity")%bool
  then Some (Inf false)
  else if (String.eqb l "-inf" || String.eqb l "-infinity")%bool
  then Some (Inf true)
  else if String.eqb l "nan" then Some NaN
  else None.

(** The state of [readFloat]'s loop over the mantissa: the digits read so
    far as a number, how many of them came after the point, and the flags
    [sawdot], [sawdigits] and [underscores]. *)
Record mantissa : Type := {
  digits : Z;
  fracDigits : Z;
  sawdot : bool;
  sawdigits : bool;
  underscores : bool
}.

Definition startMantissa : mantissa :=
  {| digits := 0; fracDigits := 0; sawdot := false; sawdigits := false;
     underscores := false |}.

Definition pushDigit (base d : Z) (m : mantissa) : mantissa :=
  {| digits := digits m * base + d;
     fracDigits := if sawdot m then fracDigits m + 1 else fracDigits m;
     sawdot := sawdot m; sawdigits := true; underscores := underscores m |}.

Fixpoint scanMantissa (hex : bool) (s : string) (m : mantissa)
  : mantissa * string :=
  match s with
  | "" => (m, "")
  | String c r =>
      if Ascii.eqb c "_" then
        scanMantissa hex r
          {| digits := digits m; fracDigits := fracDigits m;
             sawdot := sawdot m; sawdigits := sawdigits m;
             underscores := true |}
      else if Ascii.eqb c "." then
        if sawdot m then (m, s)
        else scanMantissa hex r
               {| digits := digits m; fracDigits := fracDigits m;
                  sawdot := true; sawdigits := sawdigits m;
                  underscores := underscores m |}
      else if isDigit c then
        scanMantissa hex r (pushDigit (if hex then 16 else 10) (digitVal c) m)
      else if (hex && isHexLetter c)%bool then
        scanMantissa hex r (pushDigit 16 (hexLetterVal c) m)
      else (m, s)
  end.

(** The digits of the exponent, with underscores; the number stops growing
    once it has reached 10000. *)
Fixpoint scanExponent (s : string) (e : Z) (us : bool) : Z * bool * string :=
  match s with
  | "" => (e, us, "")
  | String c r =>
      if Ascii.eqb c "_" then scanExponent r e true
      else if isDigit c then
        scanExponent r (if e <? 10000 then e * 10 + digitVal c else e) us
      else (e, us, s)
  end.

(** [underscoreOK]: an underscore stands between two digits, or between a
    base prefix and a digit.  [saw] is the last character class seen:
    [None] at the start and after any other character, [Some true] after a
    digit or the prefix, [Some false] after an underscore. *)
Fixpoint underscoreLoop (hex : bool) (s : string) (saw : option bool) : bool :=
  match s with
  | "" => match saw with Some false => false | _ => true end
  | String c r =>
      if (isDigit c || (hex && isHexLetter c))%bool then
        underscoreLoop hex r (Some true)
      else if Ascii.eqb c "_" then
        match saw with
        | Some true => underscoreLoop hex r (Some false)
        | _ => false
        end
      else
        match saw with
        | Some false => false
        | _ => underscoreLoop hex r None
        end
  end.

Definition dropSign (s : string) : string :=
  match s with
  | String c r => if (Ascii.eqb c "+" || Ascii.eqb c "-")%bool then r else s
  | "" => ""
  end.

Definition underscoreOK (s : string) : bool :=
  match dropSign s with
  | String c0 (String c1 r) =>
      let l := strings.lowerByte c1 in
      if (Ascii.eqb c0 "0" &&
          (Ascii.eqb l "b" || Ascii.eqb l "o" || Ascii.eqb l "x"))%bool
      then underscoreLoop (Ascii.eqb l "x") r (Some true)
      else underscoreLoop false (String c0 (String c1 r)) None
  | t => underscoreLoop false t None
  end.

(** What [readFloat] returns for a string it accepts to its end. *)
Record number : Type := {
  neg : bool;
  hex : bool;
  mant : Z;       (* all the mantissa's digits, as an integer *)
  exp : Z         (* the power of ten, or of two for a hex literal *)
}.

Definition readExponent (isHex : bool) (m : mantissa) (rest : string)
  : option (Z * bool) :=
  let scale := if isHex then 4 * fracDigits m else fracDigits m in
  match rest with
  | "" => if isHex then None else Some (- scale, underscores m)
  | String c r =>
      if Ascii.eqb (strings.lowerByte c) (if isHex then "p" else "e") then
        let '(esign, r1) :=
          match r with
          | String d r' =>
              if Ascii.eqb d "+" then (1, r')
              else if Ascii.eqb d "-" then (-1, r')
              else (1, r)
          | "" => (1, r)
          end in
        match r1 with
        | String d _ =>
            if isDigit d then
              match scanExponent r1 0 (underscores m) with
              | (e, us, "") => Some (e * esign - scale, us)
              | _ => None
              end
            else None
        | "" => None
        end
      else None
  end.

Definition readFloat (s : string) : option number :=
  match s with
  | "" => None
  | String c r =>
      let isNeg := Ascii.eqb c "-" in
      let body := if (Ascii.eqb c "+" || isNeg)%bool then r else s in
      let '(isHex, body') :=
        match body with
        | String c0 (String c1 (String c2 r2)) =>
            if (Ascii.eqb c0 "0" && Ascii.eqb (strings.lowerByte c1) "x")%bool
            then (true, String c2 r2) else (false, body)
        | _ => (false, body)
        end in
      let '(m, rest) := scanMantissa isHex body' startMantissa in
      if negb (sawdigits m) then None
      else
        match readExponent isHex m rest with
        | None => None
        | Some (e, us) =>
            if (us && negb (underscoreOK s))%bool then None
            else Some {| neg := isNeg; hex := isHex; mant := digits m; exp := e |}
        end
  end.

(** The nearest [float64], ties to even, of [m * 2^e] and of [m * 10^e]. *)
Definition roundBinary (isNeg : bool) (m e : Z) : float64 :=
  match m with
  | Zpos p => binary_round prec emax isNeg p e
  | _ => S754_zero isNeg
  end.

Definition roundDecimal (isNeg : bool) (m e : Z) : float64 :=
  match m with
  | Zpos p =>
      if 0 <=? e then binary_round prec emax isNeg (p * Z.to_pos (10 ^ e)) 0
      else
        let '(q, e', loc) :=
          SFdiv_core_binary prec emax (Zpos p) 0 (10 ^ (- e)) 0 in
        binary_round_aux prec emax isNeg q e' loc
  | _ => S754_zero isNeg
  end.

Definition ParseFloat (s : string) : float64 * option NumError :=
  match special s with
  | Some f => (f, None)
  | None =>
      match readFloat s with
      | None => (zero, Some ErrSyntax)
      | Some n =>
          let f := if hex n then roundBinary (neg n) (mant n) (exp n)
                   else roundDecimal (neg n) (mant n) (exp n) in
          match f with
          | S754_infinity _ => (f, Some ErrRange)
          | _ => (f, None)
          end
      end
  end.

End strconv.

(* ================================================================== *)
(** * Parsed markup: what goquery is asked in [ExtractCSRFToken] *)

Module goquery.

(** An element's start tag: its name and attributes, both lower-cased by
    the parser, the attributes in source order. *)
Record Element : Type := {
  tag : string;
  attrs : list (string * string)
}.

(** A document as the list of its elements in document order. *)
Definition Document : Type := list Element.

Fixpoint lookupAttr (name : string) (l : list (string * string))
  : option string :=
  match l with
  | [] => None
  | (k, v) :: r => if String.eqb k name then Some v else lookupAttr name r
  end.

(** [doc.Find("tag[attr=value]")] *)
Definition Find (doc : Document) (tagName attr value : string) : list Element :=
  filter (fun e =>
            (String.eqb (tag e) tagName &&
             match lookupAttr attr (attrs e) with
             | Some v => String.eqb v value
             | None => false
             end)%bool) doc.

(** [Selection.Attr(name)]: the attribute of the first element selected. *)
Definition Attr (sel : list Element) (name : string) : option string :=
  match sel with
  | [] => None
  | e :: _ => lookupAttr name (attrs e)
  end.

(** A tokenizer for the start tags of plain markup (no comments, no
    script or style text, no character references): enough of
    [html.Parse] to read the documents used as examples below. *)
Inductive state : Type :=
| Data
| TagOpen
| TagName (name : string)
| BeforeAttr (name : string) (l : list (string * string))
| AttrName (name : string) (l : list (string * string)) (k : string)
| AfterAttrName (name : string) (l : list (string * string)) (k : string)
| BeforeValue (name : string) (l : list (string * string)) (k : string)
| Quoted (q : ascii) (name : string) (l : list (string * string)) (k v : string)
| Unquoted (name : string) (l : list (string * string)) (k v : string).

Definition isLetter (c : ascii) : bool :=
  let n := nat_of_ascii (strings.lowerByte c) in
  (Nat.leb 97 n && Nat.leb n 122)%bool.

Definition snoc (s : string) (c : ascii) : string := s ++ String c "".

(** A repeated attribute is ignored: the first one stands. *)
Definition addAttr (l : list (string * string)) (k v : string)
  : list (string * string) :=
  match lookupAttr k l with
  | Some _ => l
  | None => l ++ [(k, v)]
  end.

Definition emit (name : string) (l : list (string * string)) : Element :=
  {| tag := name; attrs := l |}.

Definition dquote : ascii := "034"%char.
Definition squote : ascii := "039"%char.

Fixpoint tokenize (s : string) (st : state) : Document :=
  match s with
  | "" => []
  | String c r =>
      let gt := Ascii.eqb c ">" in
      let sp := (strings.isSpace c || Ascii.eqb c "/")%bool in
      match st with
      | Data => tokenize r (if Ascii.eqb c "<" then TagOpen else Data)
      | TagOpen =>
          if isLetter c then tokenize r (TagName (String (strings.lowerByte c) ""))
          else tokenize r (if Ascii.eqb c "<" then TagOpen else Data)
      | TagName n =>
          if gt then emit n [] :: tokenize r Data
          else if sp then tokenize r (BeforeAttr n [])
          else tokenize r (TagName (snoc n (strings.lowerByte c)))
      | BeforeAttr n l =>
          if gt then emit n l :: tokenize r Data
          else if sp then tokenize r (BeforeAttr n l)
          else tokenize r (AttrName n l (String (strings.lowerByte c) ""))
      | AttrName n l k =>
          if gt then emit n (addAttr l k "") :: tokenize r Data
          else if Ascii.eqb c "=" then tokenize r (BeforeValue n l k)
          else if sp then tokenize r (AfterAttrName n l k)
          else tokenize r (AttrName n l (snoc k (strings.lowerByte c)))
      | AfterAttrName n l k =>
          if gt then emit n (addAttr l k "") :: tokenize r Data
          else if Ascii.eqb c "=" then tokenize r (BeforeValue n l k)
          else if sp then tokenize r (AfterAttrName n l k)
          else tokenize r (AttrName n (addAttr l k "")
                             (String (strings.lowerByte c) ""))
      | BeforeValue n l k =>
          if gt then emit n (addAttr l k "") :: tokenize r Data
          else if strings.isSpace c then tokenize r (BeforeValue n l k)
          else if (Ascii.eqb c dquote || Ascii.eqb c squote)%bool
               then tokenize r (Quoted c n l k "")
          else tokenize r (Unquoted n l k (String c ""))
      | Quoted q n l k v =>
          if Ascii.eqb c q then tokenize r (BeforeAttr n (addAttr l k v))
          else tokenize r (Quoted q n l k (snoc v c))
      | Unquoted n l k v =>
          if gt then emit n (addAttr l k v) :: tokenize r Data
          else if strings.isSpace c then tokenize r (BeforeAttr n (addAttr l k v))
          else tokenize r (Unquoted n l k (snoc v c))
      end
  end.

Definition startTags (html : string) : Document := tokenize html Data.

End goquery.

(* ================================================================== *)
(** * internal/store/profile.go: the data the order flow touches *)

Module store.

Record Address : Type := {
  FirstName : string;
  LastName : string;
  Floor : string;
  Address1 : string;
  Address2 : string;
  NearByLandmark : string;
  City : string;
  StateCode : string;
  PostalCode : string;
  Country : string;
  Phone : string;
  Latitude : string;
  Longitude : string
}.

(** [OrderInfo] without its time stamp. *)
Record OrderInfo : Type := { OrderID : string }.

(** [Profile] without its cookies and login time. *)
Record Profile : Type := {
  Name : string;
  AddressID : string;
  Address_ : option Address;
  PreferredCity : string;
  PhoneNumber : string;
  LastOrder : option OrderInfo;
  AddressSource : string
}.

Definition withPreferredCity (p : Profile) (city : string) : Profile :=
  {| Name := Name p; AddressID := AddressID p; Address_ := Address_ p;
     PreferredCity := city; PhoneNumber := PhoneNumber p;
     LastOrder := LastOrder p; AddressSource := AddressSource p |}.

Definition withLastOrder (p : Profile) (o : OrderInfo) : Profile :=
  {| Name := Name p; AddressID := AddressID p; Address_ := Address_ p;
     PreferredCity := PreferredCity p; PhoneNumber := PhoneNumber p;
     LastOrder := Some o; AddressSource := AddressSource p |}.

End store.

(* ================================================================== *)
(** * internal/bisleri/parser.go *)

Module parser.

Definition rupee : string :=
  String "226"%char (String "130"%char (String "185"%char "")).

(** ** [csrfRegex]

    The pattern reads: the text name=, a quote (single or double), the
    text csrf_token, a quote, white space (one character or more), the
    text value=, a quote, group 1 (one character or more, none of them a
    quote), a quote. *)

Definition isQuote (c : ascii) : bool :=
  (Ascii.eqb c goquery.dquote || Ascii.eqb c goquery.squote)%bool.

(** RE2's [\s]: tab, newline, form feed, carriage return, space. *)
Definition isReSpace (c : ascii) : bool :=
  let n := nat_of_ascii c in
  (Nat.eqb n 9 || Nat.eqb n 10 || Nat.eqb n 12 || Nat.eqb n 13 ||
   Nat.eqb n 32)%bool.

Definition expectLit (lit s : string) : option string :=
  if String.prefix lit s then Some (strings.dropN (String.length lit) s)
  else None.

Definition expectQuote (s : string) : option string :=
  match s with
  | String c r => if isQuote c then Some r else None
  | "" => None
  end.

Fixpoint skipReSpace (s : string) : string :=
  match s with
  | String c r => if isReSpace c then skipReSpace r else s
  | "" => ""
  end.

(** The longest run of characters that are not quotes, and what follows. *)
Fixpoint spanNotQuote (s : string) : string * string :=
  match s with
  | String c r =>
      if isQuote c then ("", s)
      else let '(v, rest) := spanNotQuote r in (String c v, rest)
  | "" => ("", "")
  end.

(** A match of [csrfRegex] starting at the head of [s]: its group 1. *)
Definition csrfMatchHere (s : string) : option string :=
  match expectLit "name=" s with
  | None => None
  | Some s1 =>
  match expectQuote s1 with
  | None => None
  | Some s2 =>
  match expectLit "csrf_token" s2 with
  | None => None
  | Some s3 =>
  match expectQuote s3 with
  | None => None
  | Some s4 =>
  match s4 with
  | "" => None
  | String c _ =>
  if negb (isReSpace c) then None else
  match expectLit "value=" (skipReSpace s4) with
  | None => None
  | Some s5 =>
  match expectQuote s5 with
  | None => None
  | Some s6 =>
      let '(v, rest) := spanNotQuote s6 in
      match v, expectQuote rest with
      | String _ _, Some _ => Some v
      | _, _ => None
      end
  end end end end end end end.

(** [csrfRegex.FindStringSubmatch(html)]: group 1 of the leftmost match. *)
Fixpoint csrfRegexFind (html : string) : option string :=
  match csrfMatchHere html with
  | Some v => Some v
  | None =>
      match html with
      | String _ r => csrfRegexFind r
      | "" => None
      end
  end.

(** The value attribute of the first input element named csrf_token, when
    it has one and it is not empty. *)
Definition csrfInputValue (doc : goquery.Document) : option string :=
  match goquery.Attr (goquery.Find doc "input" "name" "csrf_token") "value" with
  | Some v => if String.eqb v "" then None else Some v
  | None => None
  end.

Section WithParser.

(** [goquery.NewDocumentFromReader(strings.NewReader(html))]; reading
    from a string cannot fail, so neither does the parse. *)
Variable NewDocument : string -> goquery.Document.

Definition ExtractCSRFToken (html : string) : string + error :=
  match csrfRegexFind html with
  | Some v => inl v
  | None =>
      match csrfInputValue (NewDocument html) with
      | Some val => inl val
      | None => inr (errorString "csrf token not found")
      end
  end.

End WithParser.

(** ** Amounts *)

Definition ParseINRAmount (value : string) : strconv.float64 * bool :=
  let clean := strings.TrimSpace value in
  let clean := strings.TrimPrefix clean rupee in
  let clean := strings.removeByte "," clean in
  if String.eqb clean "" then (strconv.zero, false)
  else
    match strconv.ParseFloat clean with
    | (amount, None) => (amount, true)
    | (_, Some _) => (strconv.zero, false)
    end.

(** ** Cart items *)

(** Go's [int] arithmetic wraps around at 64 bits. *)
Definition wrap64 (z : Z) : Z := (z + 2 ^ 63) mod 2 ^ 64 - 2 ^ 63.

Fixpoint atoiLoop (value : string) (n : Z) : Z :=
  match value with
  | "" => n
  | String r rest =>
      if strconv.isDigit r
      then atoiLoop rest (wrap64 (wrap64 (n * 10) + strconv.digitVal r))
      else 0
  end.

Definition atoiSafe (value : string) : Z := atoiLoop value 0.

Record CartItem : Type := {
  ProductID : string;
  UUID : string;
  Quantity : Z
}.

(** The loop of [ExtractCartItem] over the items [ExtractCartItems]
    returned: the first one whose product identifier folds to the wanted
    one. *)
Fixpoint findCartItem (items : list CartItem) (productID : string)
  : string * Z * bool :=
  match items with
  | [] => ("", 0, false)
  | item :: rest =>
      if strings.EqualFold (ProductID item) productID
      then (UUID item, Quantity item, true)
      else findCartItem rest productID
  end.

(** The extractors that walk the parsed page with goquery selectors, as
    functions of the page text. *)
Record Extractor : Type := {
  NewDocument : string -> goquery.Document;
  ExtractCartItems : string -> list CartItem;
  ExtractCartCount : string -> Z * bool;
  ExtractSelectedCity : string -> string * bool;
  ExtractCityOptions : string -> list string;
  ExtractWalletBalance : string -> string * bool;
  ExtractOrderTotal : string -> string * bool
}.

Definition ExtractCartItem (x : Extractor) (html productID : string)
  : string * Z * bool :=
  findCartItem (ExtractCartItems x html) productID.

End parser.

(* ================================================================== *)
(** * internal/bisleri/client.go and checkout.go *)

Module bisleri.

(** An [http.Request] as the client builds it: the method, the path and
    query under [BaseURL], the form fields in the order they are set, and
    whether the transport follows redirects ([PlaceOrder] turns that off
    with [CheckRedirect]). *)
Record Request : Type := {
  Method : string;
  URL : string;
  Form : list (string * string);
  FollowRedirects : bool
}.

(** An [http.Response] with its body read: [URLPath] is
    [resp.Request.URL.Path], the path of the last request after the
    redirects that were followed; [Location] is the header of that name,
    empty when absent. *)
Record Response : Type := {
  StatusCode : Z;
  Status : string;
  URLPath : string;
  Location : string;
  Body : string
}.

Record Client : Type := {
  Throttle : Z;     (* milliseconds *)
  Debug : bool
}.

Definition NewClient : Client := {| Throttle := 900; Debug := false |}.

(** The methods of [Client] the order flow calls. *)
Inductive Call : Type :=
| CallVerifyAuthenticated
| CallFetchCartPage
| CallFetchPaymentPage
| CallSetCityLocation (city : string)
| CallAddProduct (productID : string) (quantity : Z)
| CallUpdateQuantity (productID uuid : string) (quantity : Z)
| CallSubmitPayment (shipmentUUID csrfToken : string)
| CallPlaceOrder.

(** Where a wait comes from: the throttle before a request, the back-off
    between the attempts of a page fetch, the delay between two polls of the
    cart after an add. *)
Inductive Pause : Type := PauseThrottle | PauseBackoff | PauseConfirm.

(** What a run does that can be seen from outside, in order: the calls of
    client methods, the requests sent with what came back, the waits, the
    profile saved, the files written in debug mode. *)
Inductive Event : Type :=
| EvCall (c : Call)
| EvRequest (r : Request) (answer : Response + error)
| EvPause (why : Pause) (ms : Z)
| EvSaveProfile (p : store.Profile)
| EvWriteFile (path : string).

(** ** [validateResponsePath]

    The guards on a nil response, request or URL never hold for a response
    the transport returned without error. *)
Definition validateResponsePath (resp : Response) (expectedPrefix : string)
  : option error :=
  let path := URLPath resp in
  if (String.eqb expectedPrefix "" || strings.HasPrefix path expectedPrefix)%bool
  then None
  else
    let lower := strings.ToLower path in
    if (String.eqb path "/" || String.eqb path "")%bool
    then Some ErrNotAuthenticated
    else if (strings.Contains lower "login" || strings.Contains lower "account"
             || strings.Contains lower "home")%bool
    then Some ErrNotAuthenticated
    else Some (errorString ("unexpected redirect to " ++ path)).

(** ** [orderIDRegex]: the text orderID= and group 1, one character or more,
    none of them an ampersand. *)

Fixpoint spanNotAmp (s : string) : string :=
  match s with
  | String c r => if Ascii.eqb c "&" then "" else String c (spanNotAmp r)
  | "" => ""
  end.

Fixpoint orderIDRegexFind (s : string) : option string :=
  match
    (if String.prefix "orderID=" s
     then match spanNotAmp (strings.dropN 8 s) with
          | "" => None
          | v => Some v
          end
     else None)
  with
  | Some v => Some v
  | None =>
      match s with
      | String _ r => orderIDRegexFind r
      | "" => None
      end
  end.

(** [url.QueryEscape] *)
Definition hexDigit (n : nat) : ascii :=
  ascii_of_nat (if Nat.ltb n 10 then 48 + n else 55 + n).

Definition shouldNotEscape (c : ascii) : bool :=
  (strconv.isDigit c || goquery.isLetter c || Ascii.eqb c "-" ||
   Ascii.eqb c "_" || Ascii.eqb c "." || Ascii.eqb c "~")%bool.

Fixpoint QueryEscape (s : string) : string :=
  match s with
  | "" => ""
  | String c r =>
      if shouldNotEscape c then String c (QueryEscape r)
      else if Ascii.eqb c " " then String "+" (QueryEscape r)
      else String "%" (String (hexDigit (nat_of_ascii c / 16))
                         (String (hexDigit (nat_of_ascii c mod 16))
                            (QueryEscape r)))
  end.

Definition placeOrderPath : string :=
  "/on/demandware.store/Sites-Bis-Site/default/Wallet-WalletPlaceOrder".
Definition submitPaymentPath : string :=
  "/on/demandware.store/Sites-Bis-Site/default/CheckoutServices-SubmitPayment".
Definition setCityPath : string :=
  "/on/demandware.store/Sites-Bis-Site/default/LocationSelector-SetCityLocation".
Definition updateQuantityPath (productID uuid : string) (quantity : Z) : string :=
  "/on/demandware.store/Sites-Bis-Site/default/Cart-UpdateQuantity?pid="
  ++ QueryEscape productID ++ "&quantity=" ++ itoa quantity
  ++ "&uuid=" ++ QueryEscape uuid.

Definition placeOrderRequest : Request :=
  {| Method := "GET"; URL := placeOrderPath; Form := [];
     FollowRedirects := false |}.

(** What [PlaceOrder] makes of the answer to its request. *)
Definition placeOrderResult (r : Response + error) : string * option error :=
  match r with
  | inr err => ("", Some err)
  | inl resp =>
      if (negb (StatusCode resp =? 302) && negb (StatusCode resp =? 303))%bool
      then ("", Some (errorString ("place order failed: " ++ Status resp)))
      else
        let location := Location resp in
        if String.eqb location ""
        then ("", Some (errorString "no redirect location from wallet place order"))
        else if negb (strings.Contains location "/orderplaced")
        then ("", Some (errorString ("unexpected redirect location: " ++ location)))
        else match orderIDRegexFind location with
             | Some id => (id, None)
             | None => ("", None)
             end
  end.

(** ** Effects

    [S] is the state of everything outside the process: the site, the
    clock, the operator at the terminal, the file system.  A computation
    threads it together with the trace of events so far. *)

Definition World (S : Type) : Type := (S * list Event)%type.
Definition M (S A : Type) : Type := World S -> A * World S.

Definition ret {S A : Type} (a : A) : M S A := fun w => (a, w).

Definition bind {S A B : Type} (m : M S A) (k : A -> M S B) : M S B :=
  fun w => let '(a, w') := m w in k a w'.

Declare Scope go_scope.
Delimit Scope go_scope with go.
Notation "x <- m ;; k" := (bind m (fun x => k))
  (at level 100, m at next level, right associativity) : go_scope.
Notation "m ;;; k" := (bind m (fun _ => k))
  (at level 100, right associativity) : go_scope.

Definition log {S : Type} (e : Event) : M S unit :=
  fun w => (tt, (fst w, (snd w ++ [e])%list)).

(** The trace a computation leaves when it starts in state [s] with an
    empty trace, and its result. *)
Definition trace {S A : Type} (m : M S A) (s : S) : list Event :=
  snd (snd (m (s, []))).

Record Env (S : Type) : Type := {
  (* [http.Client.Do] and reading the body *)
  Do : Request -> S -> (Response + error) * S;
  (* [select] on [ctx.Done()] and [time.After(d)]: true when the deadline
     of the run comes first *)
  ctxDone : Z -> S -> bool * S;
  (* [selectCity]: the operator's pick at the terminal *)
  selectCity : list string -> S -> string * S;
  (* [store.SaveProfile] *)
  SaveProfile : store.Profile -> S -> option error * S
}.
Arguments Do {S}.
Arguments ctxDone {S}.
Arguments selectCity {S}.
Arguments SaveProfile {S}.

Section Effects.

Context {S : Type}.
Variable env : Env S.
Variable c : Client.

Local Open Scope go_scope.

Definition pause (why : Pause) (ms : Z) : M S bool :=
  fun w => let '(done, s') := ctxDone env ms (fst w) in
           (done, (s', (snd w ++ [EvPause why ms])%list)).

Definition roundTrip (req : Request) : M S (Response + error) :=
  fun w => let '(r, s') := Do env req (fst w) in
           (r, (s', (snd w ++ [EvRequest req r])%list)).

Definition promptCity (options : list string) : M S string :=
  fun w => let '(city, s') := selectCity env options (fst w) in (city, (s', snd w)).

Definition saveProfile (p : store.Profile) : M S (option error) :=
  fun w => let '(r, s') := SaveProfile env p (fst w) in
           (r, (s', (snd w ++ [EvSaveProfile p])%list)).

(** [c.do]: the headers, the throttle, the request. *)
Definition do (req : Request) : M S (Response + error) :=
  if Throttle c >? 0 then
    done <- pause PauseThrottle (Throttle c) ;;
    if done then ret (inr ctxErr) else roundTrip req
  else roundTrip req.

Definition get (url : string) : Request :=
  {| Method := "GET"; URL := url; Form := []; FollowRedirects := true |}.

Definition post (url : string) (form : list (string * string)) : Request :=
  {| Method := "POST"; URL := url; Form := form; FollowRedirects := true |}.

(** [c.fetchPage]: the response carries its body. *)
Definition fetchPage (path : string) : M S (Response + error) :=
  do (get path).

Definition maxFetchAttempts : Z := 3.

(** The loop of [fetchPageWithRetry]: [n] attempts are left, this one is
    number [attempt]. *)
Fixpoint fetchLoop (path expectedPrefix : string) (n : nat) (attempt : Z)
  (lastErr : option error) : M S (string + error) :=
  match n with
  | O =>
      ret (inr (wrapError "request failed after retries: "
                  (match lastErr with
                   | Some e => e
                   | None => errorString "unknown error"
                   end) ""))
  | Datatypes.S n' =>
      let next (le : option error) : M S (string + error) :=
        if attempt <? maxFetchAttempts then
          done <- pause PauseBackoff (attempt * 1000) ;;
          if done then ret (inr ctxErr)
          else fetchLoop path expectedPrefix n' (attempt + 1) le
        else fetchLoop path expectedPrefix n' (attempt + 1) le in
      r <- fetchPage path ;;
      match r with
      | inl resp =>
          match validateResponsePath resp expectedPrefix with
          | Some err => ret (inr err)
          | None =>
              if StatusCode resp >=? 400 then
                let statusErr :=
                  HTTPStatusError path (Status resp) (StatusCode resp) in
                if ((StatusCode resp >=? 500) || (StatusCode resp =? 429))%bool
                then next (Some statusErr)
                else ret (inr statusErr)
              else ret (inl (Body resp))
          end
      | inr err => next (Some err)
      end
  end.

Definition fetchPageWithRetry (path expectedPrefix : string)
  : M S (string + error) :=
  fetchLoop path expectedPrefix 3 1 None.

Definition FetchCartPage : M S (string + error) :=
  log (EvCall CallFetchCartPage) ;;;
  fetchPageWithRetry "/mycart" "/mycart".

Definition FetchPaymentPage : M S (string + error) :=
  log (EvCall CallFetchPaymentPage) ;;;
  fetchPageWithRetry "/checkout?stage=payment" "/checkout".

Definition VerifyAuthenticated : M S (option error) :=
  log (EvCall CallVerifyAuthenticated) ;;;
  r <- fetchPage "/my-orders" ;;
  match r with
  | inr err => ret (Some err)
  | inl resp =>
      if StatusCode resp >=? 400
      then ret (Some (errorString ("auth check failed: " ++ Status resp)))
      else match validateResponsePath resp "/my-orders" with
           | Some err => ret (Some err)
           | None =>
               if String.eqb (Body resp) ""
               then ret (Some (errorString "auth check failed: empty response"))
               else ret None
           end
  end.

Definition AddProduct (productID : string) (quantity : Z) : M S (option error) :=
  log (EvCall (CallAddProduct productID quantity)) ;;;
  if quantity <=? 0 then ret (Some (errorString "quantity must be positive"))
  else
    r <- do (post "/add-product"
               [("pid", productID); ("quantity", itoa quantity); ("options", "[]")]) ;;
    match r with
    | inr err => ret (Some err)
    | inl resp =>
        if StatusCode resp >=? 400
        then ret (Some (errorString ("add product failed: " ++ Status resp)))
        else ret (validateResponsePath resp "")
    end.

Definition UpdateQuantity (productID uuid : string) (quantity : Z)
  : M S (option error) :=
  log (EvCall (CallUpdateQuantity productID uuid quantity)) ;;;
  r <- do (get (updateQuantityPath productID uuid quantity)) ;;
  match r with
  | inr err => ret (Some err)
  | inl resp =>
      if StatusCode resp >=? 400
      then ret (Some (errorString ("update quantity failed: " ++ Status resp)))
      else ret (validateResponsePath resp "")
  end.

Definition SetCityLocation (city : string) : M S (option error) :=
  log (EvCall (CallSetCityLocation city)) ;;;
  let city := strings.TrimSpace city in
  if String.eqb city "" then ret (Some (errorString "city is required to set location"))
  else
    r <- do (post setCityPath [("city", city)]) ;;
    match r with
    | inr err => ret (Some err)
    | inl resp =>
        if StatusCode resp >=? 400
        then ret (Some (HTTPStatusError "LocationSelector-SetCityLocation"
                          (Status resp) (StatusCode resp)))
        else ret None
    end.

Definition SubmitPayment (shipmentUUID csrfToken : string)
  (address : store.Address) : M S (option error) :=
  log (EvCall (CallSubmitPayment shipmentUUID csrfToken)) ;;;
  if (String.eqb shipmentUUID "" || String.eqb csrfToken "")%bool
  then ret (Some (errorString "missing shipment UUID or CSRF token"))
  else
    r <- do (post submitPaymentPath
               [("addressSelector", shipmentUUID);
                ("dwfrm_billing_addressFields_firstName", store.FirstName address);
                ("dwfrm_billing_addressFields_lastName", store.LastName address);
                ("dwfrm_billing_addressFields_address1", store.Address1 address);
                ("dwfrm_billing_addressFields_address2", store.Address2 address);
                ("dwfrm_billing_addressFields_country", store.Country address);
                ("dwfrm_billing_addressFields_states_stateCode", store.StateCode address);
                ("dwfrm_billing_addressFields_city", store.City address);
                ("dwfrm_billing_addressFields_postalCode", store.PostalCode address);
                ("csrf_token", csrfToken);
                ("localizedNewAddressTitle", "New Address");
                ("dwfrm_billing_paymentMethod", "WALLET")]) ;;
    match r with
    | inr err => ret (Some err)
    | inl resp =>
        if StatusCode resp >=? 400
        then ret (Some (errorString ("submit payment failed: " ++ Status resp)))
        else ret None
    end.

(** [PlaceOrder] sends its request itself, on a copy of the HTTP client
    that does not follow redirects. *)
Definition PlaceOrder : M S (string * option error) :=
  log (EvCall CallPlaceOrder) ;;;
  if Throttle c >? 0 then
    done <- pause PauseThrottle (Throttle c) ;;
    if done then ret ("", Some ctxErr)
    else r <- roundTrip placeOrderRequest ;; ret (placeOrderResult r)
  else r <- roundTrip placeOrderRequest ;; ret (placeOrderResult r).

End Effects.

End bisleri.

(* ================================================================== *)
(** * cmd/bislericli/main.go: the order command *)

Module main.

Import bisleri.

Definition productID20L : string := "BIS-20LTR01-90".

Definition allowedProducts (productID : string) : list string :=
  [strings.ToLower productID;
   strings.ToLower "Bis-20LTREmpty-Product";
   strings.ToLower "Bis-20LTRDeposit-Amount-Product"].

Definition memString (s : string) (l : list string) : bool :=
  existsb (String.eqb s) l.

Fixpoint filterExtraItems (items : list parser.CartItem) (productID : string)
  : list string :=
  match items with
  | [] => []
  | item :: rest =>
      let id := strings.ToLower (strings.TrimSpace (parser.ProductID item)) in
      if String.eqb id "" then "unknown-item" :: filterExtraItems rest productID
      else if negb (memString id (allowedProducts productID))
      then parser.ProductID item :: filterExtraItems rest productID
      else filterExtraItems rest productID
  end.

Fixpoint firstEqualFold (options : list string) (target : string)
  : option string :=
  match options with
  | [] => None
  | opt :: rest =>
      if strings.EqualFold opt target then Some opt
      else firstEqualFold rest target
  end.

Definition aliases : list (string * string) :=
  [("bangalore", "bengaluru"); ("bengaluru", "bangalore");
   ("gurgaon", "gurugram"); ("gurugram", "gurgaon"); ("bombay", "mumbai")].

Definition matchCityOption (candidate : string) (options : list string)
  : string * bool :=
  let candidate := strings.TrimSpace candidate in
  if (String.eqb candidate "" || Nat.eqb (List.length options) 0)%bool
  then ("", false)
  else
    match firstEqualFold options candidate with
    | Some opt => (opt, true)
    | None =>
        match
          match goquery.lookupAttr (strings.ToLower candidate) aliases with
          | Some mapped => firstEqualFold options mapped
          | None => None
          end
        with
        | Some opt => (opt, true)
        | None =>
            let lowerCandidate := strings.ToLower candidate in
            let matches :=
              filter (fun opt =>
                        let lowerOpt := strings.ToLower opt in
                        (strings.Contains lowerCandidate lowerOpt ||
                         strings.Contains lowerOpt lowerCandidate)%bool)
                     options in
            match matches with
            | [m] => (m, true)
            | _ => ("", false)
            end
        end
    end.

(** What one turn of the loop of [confirmCartQuantity] ends in: a return
    from the function, or the next turn with [lastErr] set. *)
Inductive Outcome : Type :=
| Return (err : option error)
| Continue (lastErr : option error).

Section Order.

Context {S : Type}.
Variable env : Env S.
Variable client : Client.
Variable x : parser.Extractor.

Local Open Scope go_scope.

Definition resolveCity (profile : store.Profile) (options : list string)
  : M S string :=
  match options with
  | _ :: _ =>
      match matchCityOption (store.PreferredCity profile) options with
      | (m, true) => ret m
      | _ =>
          match
            match store.Address_ profile with
            | Some a => matchCityOption (store.City a) options
            | None => ("", false)
            end
          with
          | (m, true) => ret m
          | _ => promptCity env options
          end
      end
  | [] =>
      if negb (String.eqb (store.PreferredCity profile) "")
      then ret (store.PreferredCity profile)
      else
        match store.Address_ profile with
        | Some a =>
            if negb (String.eqb (store.City a) "") then ret (store.City a)
            else promptCity env []
        | None => promptCity env []
        end
  end.

Definition ensureCityLocation (profile : store.Profile) (cartHTML : string)
  : M S (string * store.Profile * option error) :=
  match parser.ExtractSelectedCity x cartHTML with
  | (String _ _, true) => ret (cartHTML, profile, None)
  | _ =>
      let options := parser.ExtractCityOptions x cartHTML in
      city <- resolveCity profile options ;;
      if String.eqb city "" then ret (cartHTML, profile, None)
      else
        e <- SetCityLocation env client city ;;
        match e with
        | Some err => ret (cartHTML, profile, Some err)
        | None =>
            let profile := store.withPreferredCity profile city in
            saveProfile env profile ;;;
            refreshed <- FetchCartPage env client ;;
            match refreshed with
            | inr err => ret (cartHTML, profile, Some err)
            | inl html => ret (html, profile, None)
            end
        end
  end.

Definition cartUnreadable (html : string) (items : list parser.CartItem) : bool :=
  match parser.ExtractCartCount x html with
  | (count, true) => ((count >? 0) && Nat.eqb (List.length items) 0)%bool
  | _ => false
  end.

Definition extraItemsError (extraItems : list string) : error :=
  errorString
    ("cart contains other items; clear cart or pass --allow-extra (items: "
     ++ strings.Join extraItems ", " ++ ")").

(** The body of the loop of [confirmCartQuantity], up to the delay. *)
Definition confirmAttempt (productID : string) (quantity : Z)
  (allowExtra : bool) (lastErr : option error) : M S Outcome :=
  r <- FetchCartPage env client ;;
  match r with
  | inr err =>
      if isNotAuthenticated err then ret (Return (Some err))
      else ret (Continue (Some err))
  | inl cartHTML =>
      let items := parser.ExtractCartItems x cartHTML in
      if cartUnreadable cartHTML items
      then ret (Continue (Some (errorString "unable to parse cart items")))
      else
        let extraItems := filterExtraItems items productID in
        if (negb (Nat.eqb (List.length extraItems) 0) && negb allowExtra)%bool
        then ret (Return (Some (extraItemsError extraItems)))
        else
          match parser.ExtractCartItem x cartHTML productID with
          | (String u0 u, existingQty, true) =>
              let uuid := String u0 u in
              let rest (lastErr : option error) : M S Outcome :=
                if existingQty =? quantity then ret (Return None)
                else
                  e <- UpdateQuantity env client productID uuid quantity ;;
                  match e with
                  | Some err => ret (Continue (Some err))
                  | None =>
                      ret (Continue (Some (errorString
                        ("cart quantity was " ++ itoa existingQty
                         ++ ", updated to " ++ itoa quantity))))
                  end in
              if existingQty =? 0 then
                e <- UpdateQuantity env client productID uuid quantity ;;
                match e with
                | Some err => rest (Some err)
                | None => ret (Return None)
                end
              else rest lastErr
          | _ =>
              match parser.ExtractCartCount x cartHTML with
              | (0, true) => ret (Continue (Some (errorString "cart still empty")))
              | _ => ret (Continue (Some (errorString "product not yet visible in cart")))
              end
          end
  end.

Definition maxAttempts : Z := 4.

Fixpoint confirmLoop (productID : string) (quantity : Z) (allowExtra : bool)
  (n : nat) (attempt : Z) (lastErr : option error) : M S (option error) :=
  match n with
  | O =>
      ret (Some (errorString
        ("unable to confirm cart quantity after add: "
         ++ Error (match lastErr with
                   | Some e => e
                   | None => errorString "unknown cart verification error"
                   end))))
  | Datatypes.S n' =>
      o <- confirmAttempt productID quantity allowExtra lastErr ;;
      match o with
      | Return err => ret err
      | Continue le =>
          if attempt <? maxAttempts then
            done <- pause env PauseConfirm (attempt * 500) ;;
            if done then ret (Some ctxErr)
            else confirmLoop productID quantity allowExtra n' (attempt + 1) le
          else confirmLoop productID quantity allowExtra n' (attempt + 1) le
      end
  end.

Definition confirmCartQuantity (productID : string) (quantity : Z)
  (allowExtra : bool) : M S (option error) :=
  confirmLoop productID quantity allowExtra 4 1 None.

Definition addAndConfirm (quantity : Z) (allowExtra : bool) : M S (option error) :=
  e <- AddProduct env client productID20L quantity ;;
  match e with
  | Some err => ret (Some err)
  | None => confirmCartQuantity productID20L quantity allowExtra
  end.

(** [runOrder], lines 431 to 460: the cart page was fetched and the
    delivery city is settled; [cartHTML] is the page to go by. *)
Definition reconcileCart (cartHTML : string) (quantity : Z) (allowExtra : bool)
  : M S (option error) :=
  let cartItems := parser.ExtractCartItems x cartHTML in
  if cartUnreadable cartHTML cartItems
  then ret (Some (errorString
                    "unable to parse cart items; please clear cart or try again"))
  else
    let extraItems := filterExtraItems cartItems productID20L in
    if (negb (Nat.eqb (List.length extraItems) 0) && negb allowExtra)%bool
    then ret (Some (extraItemsError extraItems))
    else
      match parser.ExtractCartItem x cartHTML productID20L with
      | (String u0 u, existingQty, true) =>
          if negb (existingQty =? quantity)
          then UpdateQuantity env client productID20L (String u0 u) quantity
          else ret None
      | _ =>
          if (negb (Nat.eqb (List.length cartItems) 0) && negb allowExtra)%bool
          then ret (Some (errorString
                            "cart is not empty; clear cart or pass --allow-extra"))
          else addAndConfirm quantity allowExtra
      end.

(** [runOrder], lines 417 to 473: the session check and the cart. *)
Definition runOrderCart (profile : store.Profile) (quantity : Z)
  (allowExtra : bool) : M S (store.Profile * option error) :=
  e <- VerifyAuthenticated env client ;;
  match e with
  | Some err => ret (profile, Some err)
  | None =>
      cart <- FetchCartPage env client ;;
      match cart with
      | inl cartHTML =>
          r <- ensureCityLocation profile cartHTML ;;
          match r with
          | (_, profile, Some err) => ret (profile, Some err)
          | (cartHTML, profile, None) =>
              e <- reconcileCart cartHTML quantity allowExtra ;;
              ret (profile, e)
          end
      | inr cartErr =>
          if isNotAuthenticated cartErr then ret (profile, Some cartErr)
          else
            e <- addAndConfirm quantity allowExtra ;;
            ret (profile, e)
      end
  end.

(** [runOrder], lines 612 to 645: the check of the order total and of the
    wallet balance on the payment page.  [None] lets the run go on. *)
Definition checkTotalAndBalance (debug : bool) (paymentHTML : string)
  : M S (option error) :=
  match parser.ExtractOrderTotal x paymentHTML with
  | (total, true) =>
      match parser.ParseINRAmount total with
      | (totalAmount, true) =>
          if strconv.leb totalAmount strconv.zero then
            (if debug then log (EvWriteFile "/tmp/payment_page_fail_total.html")
             else ret tt) ;;;
            ret (Some (errorString ("invalid order total detected (" ++ total
                                    ++ "); check debug html")))
          else
            match parser.ExtractWalletBalance x paymentHTML with
            | (balance, true) =>
                match parser.ParseINRAmount balance with
                | (balAmount, true) =>
                    if strconv.ltb balAmount totalAmount
                    then ret (Some (errorString
                           ("insufficient wallet balance (" ++ balance
                            ++ ") for order total (" ++ total ++ ")")))
                    else ret None
                | _ => ret None
                end
            | _ => ret None
            end
      | _ => ret (Some (errorString
                          ("failed to parse order total amount: " ++ total)))
      end
  | _ =>
      (if debug then log (EvWriteFile "/tmp/payment_page_no_total.html")
       else ret tt) ;;;
      ret (Some (errorString "failed to detect order total on payment page"))
  end.

(** [runOrder], lines 654 to 674: placing the order and what follows. *)
Definition placeAndRecord (profile : store.Profile)
  : M S (store.Profile * option error) :=
  r <- PlaceOrder env client ;;
  match r with
  | (_, Some err) => ret (profile, Some err)
  | ("", None) =>
      ret (profile, Some (errorString
        "order placement did not return a valid order ID; check wallet or order history"))
  | (orderID, None) =>
      let profile := store.withLastOrder profile {| store.OrderID := orderID |} in
      saveProfile env profile ;;;
      FetchPaymentPage env client ;;;
      ret (profile, None)
  end.

(** [runOrder], lines 600 to 675: from the payment page to the end, with
    the shipment identifier, the token of the shipping page and the address
    the earlier stages settled. *)
Definition runOrderPayment (profile : store.Profile)
  (shipmentUUID csrfToken : string) (address : store.Address) (debug : bool)
  : M S (store.Profile * option error) :=
  page <- FetchPaymentPage env client ;;
  match page with
  | inr err => ret (profile, Some err)
  | inl paymentHTML =>
      g <- checkTotalAndBalance debug paymentHTML ;;
      match g with
      | Some err => ret (profile, Some err)
      | None =>
          let paymentCSRF :=
            match parser.ExtractCSRFToken (parser.NewDocument x) paymentHTML with
            | inl t => t
            | inr _ => csrfToken
            end in
          e <- SubmitPayment env client shipmentUUID paymentCSRF address ;;
          match e with
          | Some err => ret (profile, Some err)
          | None => placeAndRecord profile
          end
      end
  end.

End Order.

End main.

(* ================================================================== *)
(** * Concrete situations, used as examples *)

Module scenario.

(** A Linux account whose configuration directory exists. *)
Definition linuxOS : config.OS :=
  {| config.ConfigDir := inl "/home/asha/.config/bislericli";
     config.MkdirAll := fun _ => None |}.

(** The answer to a request for the cart that was redirected to the login
    page, and one that landed on a maintenance page. *)
Definition landedOnLogin : bisleri.Response :=
  {| bisleri.StatusCode := 200; bisleri.Status := "200 OK";
     bisleri.URLPath := "/Login-Show"; bisleri.Location := "";
     bisleri.Body := "<html>Sign in</html>" |}.

Definition landedOnMaintenance : bisleri.Response :=
  {| bisleri.StatusCode := 200; bisleri.Status := "200 OK";
     bisleri.URLPath := "/maintenance"; bisleri.Location := "";
     bisleri.Body := "<html>Back soon</html>" |}.

(** A page with two hidden inputs named csrf_token: the first one writes
    its value before its name, the second one its name first. *)
Definition twoTokens : string :=
  "<form><input type='hidden' value='A' name='csrf_token'>"
  ++ "<input type='hidden' name='csrf_token' value='B'></form>".

(** A page whose only token input writes the value first, and a page with
    none. *)
Definition valueFirst : string :=
  "<form><input type='hidden' value='A' name='csrf_token'></form>".

Definition noToken : string := "<form><input name='qty' value='2'></form>".

(** A site that answers every request by [site], a run whose deadline is
    far away, an operator who types nothing, a profile file that saves. *)
Definition staticEnv (site : bisleri.Request -> bisleri.Response + error)
  : bisleri.Env unit :=
  {| bisleri.Do := fun req s => (site req, s);
     bisleri.ctxDone := fun _ s => (false, s);
     bisleri.selectCity := fun _ s => ("", s);
     bisleri.SaveProfile := fun _ s => (None, s) |}.

Definition ok (path body : string) : bisleri.Response :=
  {| bisleri.StatusCode := 200; bisleri.Status := "200 OK";
     bisleri.URLPath := path; bisleri.Location := ""; bisleri.Body := body |}.

Definition redirect (code : Z) (status location : string) : bisleri.Response :=
  {| bisleri.StatusCode := code; bisleri.Status := status;
     bisleri.URLPath := bisleri.placeOrderPath; bisleri.Location := location;
     bisleri.Body := "" |}.

Definition asha : store.Profile :=
  {| store.Name := "default"; store.AddressID := "addr-1";
     store.Address_ := None; store.PreferredCity := "Bengaluru";
     store.PhoneNumber := "9876543210"; store.LastOrder := None;
     store.AddressSource := "" |}.




Definition placed : bisleri.Response :=
  redirect 302 "302 Found" "/orderplaced?orderID=BIS123&ref=wallet".

(** The query parameter of a given name in a location, as [url.Parse] and
    [Query().Get] read it: the text after the first question mark, cut at
    ampersands, each piece a name, an equals sign and a value. *)
Fixpoint afterByte (c : ascii) (s : string) : option string :=
  match s with
  | "" => None
  | String d r => if Ascii.eqb c d then Some r else afterByte c r
  end.

Fixpoint firstParam (name : string) (pieces : list string) : option string :=
  match pieces with
  | [] => None
  | piece :: rest =>
      if String.prefix (name ++ "=") piece
      then Some (strings.dropN (String.length name + 1) piece)
      else firstParam name rest
  end.

Definition queryParam (location name : string) : option string :=
  match afterByte "?" location with
  | None => None
  | Some q => firstParam name (strings.splitByte "&" q)
  end.

(** ** The pages of the examples and how the extractors read them

    The cart page shows the delivery city as chosen and one block per line:
    an element with the line identifier and the product identifier, and
    inside it the quantity input. *)

Definition cityBlock : string :=
  "<select id='citySelect'><option value='Bengaluru' selected></option></select>".

Definition lineBlock (uuid productID : string) (quantity : Z) : string :=
  "<div data-uuid='" ++ uuid ++ "' data-pid='" ++ productID ++ "'>"
  ++ "<input class='qty' value='" ++ itoa quantity ++ "'></div>".

Definition targetLine (quantity : Z) : string :=
  lineBlock "aaaa1111" main.productID20L quantity.

Definition litreLine : string := lineBlock "bbbb2222" "BIS-1LTR-12" 1.

Definition cartPage (quantity : Z) (withLitre : bool) : string :=
  cityBlock ++ targetLine quantity ++ (if withLitre then litreLine else "").

(** The first strategy of [ExtractCartItems] on such a page: every element
    with a line identifier, its product identifier attribute, and the value
    of the input that follows. *)
Fixpoint firstInputValue (doc : goquery.Document) : Z :=
  match doc with
  | [] => 0
  | e :: rest =>
      if String.eqb (goquery.tag e) "input" then
        match goquery.lookupAttr "value" (goquery.attrs e) with
        | Some v => parser.atoiSafe v
        | None => 0
        end
      else firstInputValue rest
  end.

Fixpoint linesOf (doc : goquery.Document) : list parser.CartItem :=
  match doc with
  | [] => []
  | e :: rest =>
      match goquery.lookupAttr "data-uuid" (goquery.attrs e) with
      | Some u =>
          {| parser.ProductID :=
               match goquery.lookupAttr "data-pid" (goquery.attrs e) with
               | Some p => strings.TrimSpace p
               | None => ""
               end;
             parser.UUID := strings.TrimSpace u;
             parser.Quantity := firstInputValue rest |} :: linesOf rest
      | None => linesOf rest
      end
  end.

Fixpoint selectedOption (doc : goquery.Document) : string * bool :=
  match doc with
  | [] => ("", false)
  | e :: rest =>
      match String.eqb (goquery.tag e) "option",
            goquery.lookupAttr "selected" (goquery.attrs e),
            goquery.lookupAttr "value" (goquery.attrs e) with
      | true, Some _, Some v => (v, negb (String.eqb v ""))
      | _, _, _ => selectedOption rest
      end
  end.

(** The text that follows the first occurrence of [marker], up to the next
    tag. *)
Fixpoint upToTag (s : string) : string :=
  match s with
  | "" => ""
  | String c r => if Ascii.eqb c "<" then "" else String c (upToTag r)
  end.

Fixpoint textAfter (marker s : string) : option string :=
  if String.prefix marker s
  then Some (upToTag (strings.dropN (String.length marker) s))
  else match s with
       | "" => None
       | String _ r => textAfter marker r
       end.

(** The payment page shows the total in the element of class
    grand-total-sum and the balance after the words Bisleri Wallet. *)
Definition paymentPage (total balance : string) : string :=
  "<span class='grand-total-sum'>" ++ total ++ "</span>"
  ++ "<div class='wallet'>Bisleri Wallet " ++ balance ++ "</div>"
  ++ "<input type='hidden' name='csrf_token' value='tok-pay'>".

Definition readTotal (html : string) : string * bool :=
  match textAfter "grand-total-sum'>" html with
  | Some t => let t := strings.TrimSpace t in (t, negb (String.eqb t ""))
  | None => ("", false)
  end.

Fixpoint amountChars (s : string) : string :=
  match s with
  | "" => ""
  | String c r =>
      if (strconv.isDigit c || Ascii.eqb c "." || Ascii.eqb c ",")%bool
      then String c (amountChars r) else ""
  end.

Definition readBalance (html : string) : string * bool :=
  match textAfter "Bisleri Wallet " html with
  | Some t =>
      match amountChars (strings.TrimPrefix t parser.rupee) with
      | "" => ("", false)
      | n => (parser.rupee ++ n, true)
      end
  | None => ("", false)
  end.

Definition reader : parser.Extractor :=
  {| parser.NewDocument := goquery.startTags;
     parser.ExtractCartItems := fun html => linesOf (goquery.startTags html);
     parser.ExtractCartCount := fun _ => (0, false);
     parser.ExtractSelectedCity := fun html => selectedOption (goquery.startTags html);
     parser.ExtractCityOptions := fun _ => ["Bengaluru"];
     parser.ExtractWalletBalance := readBalance;
     parser.ExtractOrderTotal := readTotal |}.

(** ** A shop with a cart

    The cart page fails [cartFailures] more times with status 503, then
    shows the 20L line at [jars] and, when [withLitre], a one-litre line.
    Adding adds to the line, updating sets it. *)
Record Shop : Type := {
  cartFailures : nat;
  jars : Z;
  withLitre : bool
}.

Definition unavailable : bisleri.Response :=
  {| bisleri.StatusCode := 503; bisleri.Status := "503 Service Unavailable";
     bisleri.URLPath := "/mycart"; bisleri.Location := ""; bisleri.Body := "" |}.

Definition shopDo (req : bisleri.Request) (s : Shop)
  : (bisleri.Response + error) * Shop :=
  if String.eqb (bisleri.URL req) "/mycart" then
    match cartFailures s with
    | Datatypes.S n =>
        (inl unavailable,
         {| cartFailures := n; jars := jars s; withLitre := withLitre s |})
    | O => (inl (ok "/mycart" (cartPage (jars s) (withLitre s))), s)
    end
  else if String.eqb (bisleri.URL req) "/add-product" then
    (inl (ok "/add-product" "{}"),
     {| cartFailures := cartFailures s;
        jars := jars s + match goquery.lookupAttr "quantity" (bisleri.Form req) with
                         | Some q => parser.atoiSafe q
                         | None => 0
                         end;
        withLitre := withLitre s |})
  else if String.prefix "/on/demandware.store/Sites-Bis-Site/default/Cart-UpdateQuantity"
            (bisleri.URL req) then
    (inl (ok "/on/demandware.store/Sites-Bis-Site/default/Cart-UpdateQuantity" "{}"),
     {| cartFailures := cartFailures s;
        jars := match queryParam (bisleri.URL req) "quantity" with
                | Some q => parser.atoiSafe q
                | None => jars s
                end;
        withLitre := withLitre s |})
  else (inl (ok (bisleri.URL req) "<html>My orders</html>"), s).

Definition shopEnv : bisleri.Env Shop :=
  {| bisleri.Do := shopDo;
     bisleri.ctxDone := fun _ s => (false, s);
     bisleri.selectCity := fun _ s => ("", s);
     bisleri.SaveProfile := fun _ s => (None, s) |}.

(** The site at the payment stage: the payment page shows [total] and
    [balance], the payment is accepted, the order is placed. *)
Definition paymentSite (total balance : string)
  : bisleri.Request -> bisleri.Response + error :=
  fun req =>
    if String.eqb (bisleri.URL req) "/checkout?stage=payment"
    then inl (ok "/checkout" (paymentPage total balance))
    else if String.eqb (bisleri.URL req) bisleri.placeOrderPath
    then inl placed
    else inl (ok (bisleri.URL req) "{}").

Definition home : store.Address :=
  {| store.FirstName := "Asha"; store.LastName := "Rao"; store.Floor := "2";
     store.Address1 := "14 Lake Road"; store.Address2 := "";
     store.NearByLandmark := ""; store.City := "Bengaluru";
     store.StateCode := "KA"; store.PostalCode := "560103";
     store.Country := "IN"; store.Phone := "9876543210";
     store.Latitude := ""; store.Longitude := "" |}.

(** The account's cart page is down for three requests; the cart holds two
    20L jars, with or without a one-litre line. *)
Definition cartDown (litre : bool) : Shop :=
  {| cartFailures := 3; jars := 2; withLitre := litre |}.

Definition cartUp (quantity : Z) (litre : bool) : Shop :=
  {| cartFailures := 0; jars := quantity; withLitre := litre |}.

End scenario.
(** * The vocabulary of the statements

    The predicates and tests the theorems below are stated with. *)

Section PathWords.

Import filepath.

Definition noSep (s : string) : Prop := strings.Contains s "/" = false.

(** A real path element: not empty, not a dot or two, without separator. *)
Definition real (f : string) : Prop :=
  f <> "" /\ f <> "." /\ f <> ".." /\ noSep f.

(** The shape of a cleaned list of elements: double dots first, and only
    when the path is not rooted, then real elements. *)
Fixpoint cleanForm (r : bool) (l : list string) : Prop :=
  match l with
  | [] => True
  | e :: rest => (e = ".." /\ r = false /\ cleanForm r rest) \/ Forall real (e :: rest)
  end.

End PathWords.

(** The landed path looks like the login page: root, empty, or with
    "login", "account" or "home" in it, in any case. *)
Definition loginLike (path : string) : Prop :=
  path = "/" \/ path = "" \/
  strings.Contains (strings.ToLower path) "login" = true \/
  strings.Contains (strings.ToLower path) "account" = true \/
  strings.Contains (strings.ToLower path) "home" = true.




(** A cart line that is neither the wanted product, nor its empty jar, nor
    its deposit. *)
Definition offending (item : parser.CartItem) : Prop :=
  main.memString (strings.ToLower (strings.TrimSpace (parser.ProductID item)))
    (main.allowedProducts main.productID20L) = false.

(** How the error names a line: by its product identifier, or as
    unknown-item when the identifier is blank. *)
Definition shownName (item : parser.CartItem) : string :=
  if String.eqb (strings.ToLower (strings.TrimSpace (parser.ProductID item))) ""
  then "unknown-item" else parser.ProductID item.

Section TraceWords.

Import bisleri.

Context {S : Type}.
Variable env : Env S.
Variable client : Client.

(** Every event [m] adds to the trace passes the test [p]. *)
Definition emits {A : Type} (p : Event -> bool) (m : M S A) : Prop :=
  forall w, exists evs,
    snd (snd (m w)) = (snd w ++ evs)%list /\ forallb p evs = true.



(** A call or a request that changes the cart: add-product and
    update-quantity. *)
Definition cartWrite (ev : Event) : bool :=
  match ev with
  | EvCall (CallAddProduct _ _) => true
  | EvCall (CallUpdateQuantity _ _ _) => true
  | EvRequest r _ =>
      (String.eqb (URL r) "/add-product" ||
       String.prefix "/on/demandware.store/Sites-Bis-Site/default/Cart-UpdateQuantity"
         (URL r))%bool
  | _ => false
  end.

Definition noCartWrite (ev : Event) : bool := negb (cartWrite ev).

Definition anyEvent (ev : Event) : bool := true.

(** The polls of the cart and the waits between them. *)
Definition isMark (ev : Event) : bool :=
  match ev with
  | EvCall CallFetchCartPage => true
  | EvPause PauseConfirm _ => true
  | _ => false
  end.

Definition marks (evs : list Event) : list Event := filter isMark evs.

Definition noMark (ev : Event) : bool := negb (isMark ev).

Definition poll : Event := EvCall CallFetchCartPage.

(** What [n] turns of the loop leave at most, from turn number [attempt]. *)
Fixpoint ideal (n : nat) (attempt : Z) : list Event :=
  match n with
  | O => []
  | Datatypes.S n' =>
      (poll :: (if attempt <? main.maxAttempts
                then [EvPause PauseConfirm (attempt * 500)] else []))
      ++ ideal n' (attempt + 1)
  end.

(** Four polls, with waits of 500, 1000 and 1500 milliseconds between. *)
Definition schedule : list Event :=
  [poll; EvPause PauseConfirm 500; poll; EvPause PauseConfirm 1000;
   poll; EvPause PauseConfirm 1500; poll].

End TraceWords.


(* ================================================================== *)
(** * Facts about byte strings *)

#[local] Arguments ascii_dec : simpl never.

Lemma prefix_cons (c d : ascii) (p s : string) :
  String.prefix (String c p) (String d s) = (Ascii.eqb c d && String.prefix p s)%bool.
Proof.
  change (String.prefix (String c p) (String d s))
    with (if ascii_dec c d then String.prefix p s else false).
  destruct (ascii_dec c d) as [->|n].
  - now rewrite Ascii.eqb_refl.
  - apply Ascii.eqb_neq in n. now rewrite n.
Qed.

Lemma Contains_eq (s sub : string) :
  strings.Contains s sub
  = (String.prefix sub s ||
     match s with "" => false | String _ r => strings.Contains r sub end)%bool.
Proof. destruct s; reflexivity. Qed.

Lemma Contains_byte_cons (c d : ascii) (r : string) :
  strings.Contains (String d r) (String c "")
  = (Ascii.eqb c d || strings.Contains r (String c ""))%bool.
Proof. rewrite Contains_eq, prefix_cons. destruct r; now rewrite andb_true_r. Qed.

Lemma prefix_nil (s : string) : String.prefix "" s = true.
Proof. destruct s; reflexivity. Qed.

Lemma append_nil_r (s : string) : s ++ "" = s.
Proof. induction s as [|c s IH]; simpl; [reflexivity | now rewrite IH]. Qed.

Lemma append_assoc (a b c : string) : (a ++ b) ++ c = a ++ b ++ c.
Proof. induction a as [|x a IH]; simpl; [reflexivity | now rewrite IH]. Qed.

Lemma prefix_app (p s : string) : String.prefix p (p ++ s) = true.
Proof.
  induction p as [|c p IH]; simpl.
  - apply prefix_nil.
  - destruct (ascii_dec c c) as [_|n]; [exact IH | now elim n].
Qed.

Lemma Contains_here (s sub : string) :
  String.prefix sub s = true -> strings.Contains s sub = true.
Proof. intros H. destruct s; simpl in *; rewrite H; reflexivity. Qed.

Lemma Contains_cons (c : ascii) (s sub : string) :
  strings.Contains s sub = true -> strings.Contains (String c s) sub = true.
Proof. intros H. simpl. rewrite H. apply orb_true_r. Qed.

Lemma Contains_app_r (a s sub : string) :
  strings.Contains s sub = true -> strings.Contains (a ++ s) sub = true.
Proof.
  intros H. induction a as [|c a IH]; simpl; [exact H|].
  change (strings.Contains (String c (a ++ s)) sub = true).
  now apply Contains_cons.
Qed.

Lemma prefix_app_l (p a b : string) :
  String.prefix p a = true -> String.prefix p (a ++ b) = true.
Proof.
  revert a. induction p as [|c p IH]; intros a H.
  - apply prefix_nil.
  - destruct a as [|d a]; simpl in *; [discriminate|].
    destruct (ascii_dec c d); [now apply IH | discriminate].
Qed.

Lemma Contains_app_l (s b sub : string) :
  strings.Contains s sub = true -> strings.Contains (s ++ b) sub = true.
Proof.
  induction s as [|c s IH]; intros H.
  - simpl in H. rewrite orb_false_r in H.
    destruct sub; [|discriminate]. apply Contains_here, prefix_nil.
  - simpl in H. apply orb_true_iff in H. destruct H as [H|H].
    + apply Contains_here. change (String c s ++ b) with (String c s ++ b).
      now apply prefix_app_l.
    + change (strings.Contains (String c (s ++ b)) sub = true).
      apply Contains_cons. now apply IH.
Qed.

Lemma Contains_middle (a s b : string) : strings.Contains (a ++ s ++ b) s = true.
Proof. apply Contains_app_r, Contains_here, prefix_app. Qed.

Lemma Contains_byte_any (s chars : string) (c : ascii) :
  strings.memByte c chars = true ->
  strings.Contains s (String c "") = true ->
  strings.ContainsAny s chars = true.
Proof.
  intros Hc. induction s as [|d s IH]; intros H.
  - discriminate.
  - simpl. rewrite Contains_byte_cons in H. apply orb_true_iff in H. destruct H as [H|H].
    + apply Ascii.eqb_eq in H. subst d. now rewrite Hc.
    + rewrite (IH H). apply orb_true_r.
Qed.

Lemma ContainsAny_byte (s chars : string) (c : ascii) :
  strings.memByte c chars = true ->
  strings.ContainsAny s chars = false ->
  strings.Contains s (String c "") = false.
Proof.
  intros Hc Hn. destruct (strings.Contains s (String c "")) eqn:E; [|reflexivity].
  rewrite (Contains_byte_any _ _ _ Hc E) in Hn. discriminate.
Qed.

(* ================================================================== *)
(** * Facts about [filepath.Clean] and [filepath.Join] *)

Section FilepathFacts.

Import filepath.

Lemma split_nonempty (c : ascii) (s : string) : strings.splitByte c s <> [].
Proof.
  destruct s as [|d r]; simpl; [discriminate|].
  destruct (Ascii.eqb c d); [discriminate|].
  destruct (strings.splitByte c r); discriminate.
Qed.

Lemma split_without (c : ascii) (f : string) :
  strings.Contains f (String c "") = false -> strings.splitByte c f = [f].
Proof.
  induction f as [|d r IH]; intros H; [reflexivity|].
  rewrite Contains_byte_cons in H. apply orb_false_iff in H. destruct H as [H1 H2].
  simpl. rewrite H1, (IH H2). reflexivity.
Qed.

Lemma split_noSep (f : string) : noSep f -> strings.splitByte Separator f = [f].
Proof. apply split_without. Qed.

Lemma split_app (c : ascii) (a b : string) :
  strings.splitByte c (a ++ String c b)
  = (strings.splitByte c a ++ strings.splitByte c b)%list.
Proof.
  induction a as [|d a IH]; simpl.
  - now rewrite Ascii.eqb_refl.
  - destruct (Ascii.eqb c d); [now rewrite IH|].
    rewrite IH. pose proof (split_nonempty c a) as Hne.
    destruct (strings.splitByte c a) as [|h t]; [now elim Hne | reflexivity].
Qed.

Lemma split_elems_without (c : ascii) (s : string) :
  Forall (fun e => strings.Contains e (String c "") = false) (strings.splitByte c s).
Proof.
  induction s as [|d r IH]; simpl.
  - constructor; [reflexivity | constructor].
  - destruct (Ascii.eqb c d) eqn:E.
    + constructor; [reflexivity | exact IH].
    + destruct (strings.splitByte c r) as [|h t].
      * constructor; [|constructor]. rewrite Contains_byte_cons. now rewrite E.
      * inversion IH; subst. constructor; [|assumption].
        rewrite Contains_byte_cons. now rewrite E.
Qed.

Lemma split_elems_noSep (s : string) :
  Forall noSep (strings.splitByte Separator s).
Proof. apply split_elems_without. Qed.

Lemma cleanStep_real (r : bool) (out : list string) (f : string) :
  real f -> cleanStep r out f = f :: out.
Proof.
  intros (H1 & H2 & H3 & _). unfold cleanStep.
  apply String.eqb_neq in H1, H2, H3. now rewrite H1, H2, H3.
Qed.

Lemma real_not_dotdot : ~ real "..".
Proof. intros (_ & _ & H & _). now elim H. Qed.

Lemma cleanForm_reals (r : bool) (l : list string) : Forall real l -> cleanForm r l.
Proof. destruct l; simpl; [trivial | now right]. Qed.

Lemma cleanForm_dots (l : list string) :
  Forall (eq "..") l -> cleanForm false l.
Proof.
  induction l as [|e l IH]; intros H; simpl; [trivial|].
  inversion H; subst. left. repeat split. now apply IH.
Qed.

Lemma cleanForm_before_dotdot (r : bool) (l1 l2 : list string) :
  cleanForm r (l1 ++ ".." :: l2) -> Forall (eq "..") l1 /\ r = false.
Proof.
  induction l1 as [|a l1 IH]; simpl; intros H.
  - destruct H as [(_ & Hr & _)|H]; [now split|].
    inversion H; subst. now elim real_not_dotdot.
  - destruct H as [(Ha & Hr & H)|H].
    + destruct (IH H) as [IH1 _]. split; [constructor; [now symmetry|exact IH1] | exact Hr].
    + inversion H as [|? ? _ H']; subst. apply Forall_app in H'. destruct H' as [_ H'].
      inversion H'; subst. now elim real_not_dotdot.
Qed.

Lemma cleanForm_app_l (r : bool) (l1 l2 : list string) :
  cleanForm r (l1 ++ l2) -> cleanForm r l1.
Proof.
  induction l1 as [|a l1 IH]; simpl; intros H; [trivial|].
  destruct H as [(Ha & Hr & H)|H].
  - left. repeat split; try assumption. now apply IH.
  - right. change (a :: l1 ++ l2)%list with ((a :: l1) ++ l2)%list in H.
    now apply Forall_app in H.
Qed.

Lemma cleanForm_snoc_real (r : bool) (l : list string) (f : string) :
  cleanForm r l -> real f -> cleanForm r (l ++ [f]).
Proof.
  induction l as [|a l IH]; simpl; intros H Hf.
  - right. now constructor.
  - destruct H as [(Ha & Hr & H)|H].
    + left. repeat split; try assumption. now apply IH.
    + right. change (a :: l ++ [f])%list with ((a :: l) ++ [f])%list.
      apply Forall_app. split; [assumption | now constructor].
Qed.

Lemma cleanForm_elem (r : bool) (l : list string) (e : string) :
  cleanForm r l -> In e l -> e = ".." \/ real e.
Proof.
  induction l as [|a l IH]; simpl; intros H Hin; [contradiction|].
  destruct H as [(Ha & Hr & H)|H].
  - destruct Hin as [<-|Hin]; [now left | now apply IH].
  - right. rewrite Forall_forall in H. apply H. exact Hin.
Qed.

Lemma cleanStep_form (r : bool) (acc : list string) (e : string) :
  noSep e -> cleanForm r (rev acc) -> cleanForm r (rev (cleanStep r acc e)).
Proof.
  intros He H. unfold cleanStep.
  destruct (String.eqb_spec e ""); [exact H|].
  destruct (String.eqb_spec e "."); [exact H|].
  destruct (String.eqb_spec e "..").
  - destruct acc as [|top rest].
    + destruct r; simpl; [trivial | left; repeat split].
    + destruct (String.eqb_spec top "..") as [->|Hn].
      * simpl in *. destruct (cleanForm_before_dotdot r (rev rest) [] H) as [Hd Hr].
        subst r. apply cleanForm_dots.
        apply Forall_app. split; [|repeat constructor].
        apply Forall_app. split; [exact Hd | repeat constructor].
      * simpl in H. now apply cleanForm_app_l in H.
  - simpl. apply cleanForm_snoc_real; [exact H|]. repeat split; assumption.
Qed.

Lemma fold_cleanStep_form (r : bool) (elems acc : list string) :
  Forall noSep elems -> cleanForm r (rev acc) ->
  cleanForm r (rev (fold_left (cleanStep r) elems acc)).
Proof.
  revert acc. induction elems as [|e elems IH]; intros acc He H; simpl; [exact H|].
  inversion He; subst. apply IH; [assumption|]. now apply cleanStep_form.
Qed.

Lemma cleanElems_form (r : bool) (s : string) :
  cleanForm r (cleanElems r (strings.splitByte Separator s)).
Proof.
  unfold cleanElems. apply fold_cleanStep_form; [apply split_elems_noSep | exact I].
Qed.

(** Cleaning a list in clean form changes nothing. *)
Lemma fold_cleanStep_id (r : bool) (l2 l1 : list string) :
  cleanForm r (l1 ++ l2) ->
  fold_left (cleanStep r) l2 (rev l1) = rev (l1 ++ l2).
Proof.
  revert l1. induction l2 as [|e l2 IH]; intros l1 H; simpl.
  - now rewrite app_nil_r.
  - assert (Hin : In e (l1 ++ e :: l2)) by (apply in_or_app; right; now left).
    replace (l1 ++ e :: l2)%list with ((l1 ++ [e]) ++ l2)%list in *
      by (now rewrite <- app_assoc).
    destruct (cleanForm_elem r _ e H Hin) as [->|Hr].
    + rewrite <- app_assoc in H. simpl in H.
      destruct (cleanForm_before_dotdot r l1 l2 H) as [Hd Hf]. subst r.
      assert (Hs : cleanStep false (rev l1) ".." = rev (l1 ++ [".."])).
      { rewrite rev_app_distr. simpl. unfold cleanStep. simpl.
        destruct (rev l1) as [|top rest] eqn:E; [reflexivity|].
        assert (Ht : In top l1) by (apply in_rev; rewrite E; now left).
        rewrite Forall_forall in Hd. rewrite <- (Hd _ Ht). reflexivity. }
      rewrite Hs. apply IH. now rewrite <- app_assoc.
    + rewrite (cleanStep_real r _ e Hr).
      replace (e :: rev l1) with (rev (l1 ++ [e])) by (now rewrite rev_app_distr).
      now apply IH.
Qed.

Lemma cleanElems_id (r : bool) (l : list string) :
  cleanForm r l -> cleanElems r l = l.
Proof.
  intros H. unfold cleanElems.
  change (@nil string) with (rev (@nil string)) at 1.
  rewrite (fold_cleanStep_id r l [] H). apply rev_involutive.
Qed.

Lemma Join_snoc (l : list string) (f : string) :
  l <> [] -> strings.Join (l ++ [f]) "/" = strings.Join l "/" ++ "/" ++ f.
Proof.
  induction l as [|e l IH]; intros Hne; [now elim Hne|].
  destruct l as [|e2 l]; [reflexivity|].
  change (strings.Join ((e :: e2 :: l) ++ [f]) "/")
    with (e ++ "/" ++ strings.Join ((e2 :: l) ++ [f]) "/").
  rewrite IH by discriminate.
  change (strings.Join (e :: e2 :: l) "/")
    with (e ++ "/" ++ strings.Join (e2 :: l) "/").
  now rewrite !append_assoc.
Qed.

Lemma split_Join (l : list string) :
  l <> [] -> Forall noSep l ->
  strings.splitByte Separator (strings.Join l "/") = l.
Proof.
  induction l as [|e l IH]; intros Hne H; [now elim Hne|].
  inversion H; subst. destruct l as [|e2 l].
  - now apply split_noSep.
  - change (strings.Join (e :: e2 :: l) "/")
      with (e ++ String Separator (strings.Join (e2 :: l) "/")).
    rewrite split_app, split_noSep by assumption.
    rewrite IH; [reflexivity | discriminate | assumption].
Qed.

Lemma cleanForm_noSep (r : bool) (l : list string) :
  cleanForm r l -> Forall noSep l.
Proof.
  intros H. apply Forall_forall. intros e Hin.
  destruct (cleanForm_elem r l e H Hin) as [->|(_ & _ & _ & Hn)];
    [reflexivity | exact Hn].
Qed.

Lemma rooted_app (p q : string) : p <> "" -> rooted (p ++ q) = rooted p.
Proof. destruct p; [now intros H; elim H | reflexivity]. Qed.

Lemma rooted_elem (e : string) : e = ".." \/ real e -> e <> "" /\ rooted e = false.
Proof.
  intros [->|(H1 & _ & _ & Hn)]; [split; [discriminate | reflexivity]|].
  split; [exact H1|]. destruct e as [|c e]; [reflexivity|].
  unfold noSep in Hn. rewrite Contains_byte_cons in Hn.
  apply orb_false_iff in Hn. exact (proj1 Hn).
Qed.

Lemma render_rooted (r : bool) (l : list string) :
  cleanForm r l -> render r l <> "" /\ rooted (render r l) = r.
Proof.
  intros H. unfold render. destruct r; [split; [discriminate | reflexivity]|].
  destruct l as [|e l]; [split; [discriminate | reflexivity]|].
  destruct (rooted_elem e (cleanForm_elem _ _ e H (or_introl eq_refl))) as [He Hr].
  destruct l as [|e2 l]; [now split|].
  change (strings.Join (e :: e2 :: l) "/")
    with (e ++ "/" ++ strings.Join (e2 :: l) "/").
  split.
  - destruct e; [now elim He | discriminate].
  - now rewrite rooted_app.
Qed.

Lemma cleanElems_skip (r : bool) (l : list string) :
  cleanElems r ("" :: l) = cleanElems r l.
Proof. reflexivity. Qed.

Lemma cleanElems_render (r : bool) (l : list string) :
  cleanForm r l -> l <> [] ->
  cleanElems r (strings.splitByte Separator (render r l)) = l.
Proof.
  intros H Hne. unfold render. destruct r.
  - change (strings.splitByte Separator (String Separator (strings.Join l "/")))
      with ("" :: strings.splitByte Separator (strings.Join l "/")).
    rewrite cleanElems_skip, split_Join; eauto using cleanForm_noSep.
    now apply cleanElems_id.
  - destruct l as [|e l]; [now elim Hne|].
    rewrite split_Join; eauto using cleanForm_noSep.
    now apply cleanElems_id.
Qed.

Lemma cleanElems_snoc_real (r : bool) (l : list string) (f : string) :
  real f -> cleanElems r (l ++ [f]) = (cleanElems r l ++ [f])%list.
Proof.
  intros Hf. unfold cleanElems. rewrite fold_left_app. simpl.
  now rewrite cleanStep_real.
Qed.

Lemma Clean_under (p f : string) :
  p <> "" -> real f ->
  Clean (p ++ "/" ++ f)
  = render (rooted p)
      (cleanElems (rooted p) (strings.splitByte Separator p) ++ [f]).
Proof.
  intros Hp Hf. unfold Clean.
  destruct (String.eqb_spec (p ++ "/" ++ f) "") as [E|_].
  - destruct p; [now elim Hp | discriminate].
  - rewrite rooted_app by assumption.
    change (p ++ "/" ++ f) with (p ++ String Separator f).
    rewrite split_app, (split_noSep f) by apply Hf.
    now rewrite cleanElems_snoc_real.
Qed.

Lemma render_snoc (r : bool) (l : list string) (f : string) :
  l <> [] -> render r (l ++ [f]) = render r l ++ "/" ++ f.
Proof.
  intros Hne. unfold render. destruct r.
  - now rewrite Join_snoc.
  - destruct l as [|e l]; [now elim Hne|]. now rewrite Join_snoc.
Qed.

(** A directory made by [Join] with a real last element: it is the
    rendering of a clean, non-empty list of elements. *)
Lemma Join_dir_shape (a f : string) :
  real f ->
  exists r l, cleanForm r l /\ l <> [] /\ Join [a; f] = render r l.
Proof.
  intros Hf. pose proof Hf as (Hf1 & _ & _ & Hn).
  unfold Join. destruct (String.eqb_spec a "") as [->|Ha].
  - apply String.eqb_neq in Hf1. rewrite Hf1.
    exists false, [f]. split; [right; now constructor|]. split; [discriminate|].
    change (strings.Join [f] "/") with f. unfold Clean. rewrite Hf1.
    destruct (rooted_elem f (or_intror Hf)) as [_ Hr]. rewrite Hr.
    rewrite split_noSep by assumption.
    rewrite cleanElems_id; [reflexivity | right; now constructor].
  - change (strings.Join [a; f] "/") with (a ++ "/" ++ f).
    rewrite Clean_under by assumption.
    exists (rooted a), (cleanElems (rooted a) (strings.splitByte Separator a) ++ [f])%list.
    split; [|split; [|reflexivity]].
    + apply cleanForm_snoc_real; [apply cleanElems_form | assumption].
    + intros E. now apply app_eq_nil in E.
Qed.

(** A file joined to such a directory lands directly inside it. *)
Lemma Join_dir_file (a f g : string) :
  real f -> real g -> Join [Join [a; f]; g] = Join [a; f] ++ "/" ++ g.
Proof.
  intros Hf Hg. destruct (Join_dir_shape a f Hf) as (r & l & Hl & Hne & E).
  rewrite E. destruct (render_rooted r l Hl) as [Hd Hr].
  unfold Join at 1. apply String.eqb_neq in Hd. rewrite Hd.
  apply String.eqb_neq in Hd.
  change (strings.Join [render r l; g] "/") with (render r l ++ "/" ++ g).
  rewrite Clean_under, Hr, cleanElems_render by assumption.
  now apply render_snoc.
Qed.

End FilepathFacts.

(* ================================================================== *)
(** * Profile paths (config.go) *)

Lemma Contains_byte_app (a b : string) (c : ascii) :
  strings.Contains (a ++ b) (String c "")
  = (strings.Contains a (String c "") || strings.Contains b (String c ""))%bool.
Proof.
  induction a as [|d a IH]; [reflexivity|].
  change (String d a ++ b) with (String d (a ++ b)).
  now rewrite !Contains_byte_cons, IH, orb_assoc.
Qed.

Lemma length_append (a b : string) :
  String.length (a ++ b) = (String.length a + String.length b)%nat.
Proof. induction a as [|d a IH]; simpl; [reflexivity | now rewrite IH]. Qed.

Lemma real_profiles : real config.profilesDir.
Proof. repeat split; discriminate. Qed.

Lemma real_json (name : string) :
  strings.Contains name "/" = false -> real (name ++ ".json").
Proof.
  intros H.
  assert (L : forall s, (String.length s <= 2)%nat -> name ++ ".json" <> s).
  { intros s Hs E. apply (f_equal String.length) in E.
    rewrite length_append in E. simpl in E. lia. }
  repeat split; try (apply L; simpl; lia).
  unfold noSep. rewrite Contains_byte_app, H. reflexivity.
Qed.

Lemma validateProfileName_rejects (name : string) :
  strings.Contains name ".." = true \/
  strings.Contains name "/" = true \/
  strings.Contains name "\" = true ->
  config.validateProfileName name = Some (errorString "invalid profile name").
Proof.
  intros H. unfold config.validateProfileName.
  assert (E : (strings.Contains name ".." || strings.ContainsAny name "/\")%bool = true).
  { destruct H as [H|[H|H]].
    - now rewrite H.
    - rewrite (Contains_byte_any name "/\" "/" eq_refl H). apply orb_true_r.
    - rewrite (Contains_byte_any name "/\" "\" eq_refl H). apply orb_true_r. }
  now rewrite E.
Qed.

Lemma validateProfileName_accepts (name : string) :
  config.validateProfileName name = None -> strings.Contains name "/" = false.
Proof.
  unfold config.validateProfileName.
  destruct (strings.Contains name ".." || strings.ContainsAny name "/\")%bool eqn:E;
    [discriminate|].
  intros _. apply orb_false_iff in E. destruct E as [_ E].
  exact (ContainsAny_byte name "/\" "/" eq_refl E).
Qed.

(** C10. A profile name that contains two dots in a row, a slash or a
    backslash is refused with an error; and whenever [ProfilePath] returns a
    path, that path is the profiles directory, a separator, the name and
    [.json], where the last element holds no separator: the file lies
    directly inside the profiles directory. *)
Theorem ProfilePath_confined (os : config.OS) (name : string) :
  (strings.Contains name ".." = true \/
   strings.Contains name "/" = true \/
   strings.Contains name "\" = true ->
   exists err, config.ProfilePath os name = inr err) /\
  (forall p, config.ProfilePath os name = inl p ->
     exists dir,
       config.ProfilesDir os = inl dir /\
       p = dir ++ "/" ++ name ++ ".json" /\
       strings.Contains (name ++ ".json") "/" = false).
Proof.
  split.
  - intros H. unfold config.ProfilePath.
    destruct (String.eqb name ""); [eexists; reflexivity|].
    rewrite (validateProfileName_rejects name H). eexists; reflexivity.
  - intros p. unfold config.ProfilePath.
    destruct (String.eqb name ""); [discriminate|].
    destruct (config.validateProfileName name) eqn:V; [discriminate|].
    apply validateProfileName_accepts in V.
    unfold config.ProfilesDir.
    destruct (config.EnsureConfigDir os) as [cfg|err]; [|discriminate].
    intros E.
    assert (Hp : p = filepath.Join [filepath.Join [cfg; config.profilesDir];
                                    name ++ ".json"]) by congruence.
    rewrite Hp. clear E Hp.
    exists (filepath.Join [cfg; config.profilesDir]).
    split; [reflexivity|]. split.
    + apply Join_dir_file; [apply real_profiles | now apply real_json].
    + apply (real_json name V).
Qed.

Lemma ProfilePath_confined_witness :
  exists dir,
    config.ProfilesDir scenario.linuxOS = inl dir /\
    "/home/asha/.config/bislericli/profiles/default.json"
    = dir ++ "/" ++ "default" ++ ".json" /\
    strings.Contains ("default" ++ ".json") "/" = false.
Proof.
  apply (proj2 (ProfilePath_confined scenario.linuxOS "default")).
  reflexivity.
Defined.

(* ================================================================== *)
(** * The session client: where a response landed (client.go) *)

Section ResponsePath.

Import bisleri.

(** C8. When the path of the final request does not start with the expected
    prefix, the response is classified as not authenticated exactly when
    the landed path is the root, empty, or contains "login", "account" or
    "home" in any case; every other mismatch is an error of its own that
    carries the landed path and is not the session-expired sentinel. *)
Theorem validateResponsePath_classifies (resp : Response) (expectedPrefix : string) :
  strings.HasPrefix (URLPath resp) expectedPrefix = false ->
  (validateResponsePath resp expectedPrefix = Some ErrNotAuthenticated
   <-> loginLike (URLPath resp)) /\
  (~ loginLike (URLPath resp) ->
   exists err,
     validateResponsePath resp expectedPrefix = Some err /\
     err = errorString ("unexpected redirect to " ++ URLPath resp) /\
     isNotAuthenticated err = false /\
     strings.Contains (Error err) (URLPath resp) = true).
Proof.
  intros Hp. unfold validateResponsePath, loginLike.
  assert (He : String.eqb expectedPrefix "" = false).
  { destruct expectedPrefix; [|reflexivity].
    unfold strings.HasPrefix in Hp. now rewrite prefix_nil in Hp. }
  rewrite He, Hp. cbn [orb].
  destruct (String.eqb_spec (URLPath resp) "/") as [E1|E1];
    [split; [split; auto | intros H; elim H; auto]|].
  destruct (String.eqb_spec (URLPath resp) "") as [E2|E2];
    [split; [split; auto | intros H; elim H; auto]|].
  cbn [orb].
  destruct (strings.Contains (strings.ToLower (URLPath resp)) "login") eqn:C1;
    [split; [split; auto | intros H; elim H; auto]|].
  destruct (strings.Contains (strings.ToLower (URLPath resp)) "account") eqn:C2;
    [split; [split; auto 6 | intros H; elim H; auto 6]|].
  destruct (strings.Contains (strings.ToLower (URLPath resp)) "home") eqn:C3;
    [split; [split; auto 6 | intros H; elim H; auto 6]|].
  cbn [orb]. split.
  - split; [discriminate|].
    intros [H|[H|[H|[H|H]]]]; congruence.
  - intros _. eexists. split; [reflexivity|]. split; [reflexivity|].
    split; [reflexivity|].
    cbn [Error]. apply Contains_app_r, Contains_here.
    rewrite <- (append_nil_r (URLPath resp)) at 2. apply prefix_app.
Qed.

End ResponsePath.

Lemma validateResponsePath_classifies_witness :
  (bisleri.validateResponsePath scenario.landedOnLogin "/mycart"
   = Some ErrNotAuthenticated) /\
  (exists err,
     bisleri.validateResponsePath scenario.landedOnMaintenance "/mycart" = Some err /\
     err = errorString "unexpected redirect to /maintenance").
Proof.
  split.
  - apply (proj1 (validateResponsePath_classifies scenario.landedOnLogin "/mycart"
                    eq_refl)).
    right. right. left. reflexivity.
  - destruct (proj2 (validateResponsePath_classifies
                       scenario.landedOnMaintenance "/mycart" eq_refl))
      as (err & H1 & H2 & _).
    + intros [H|[H|[H|[H|H]]]]; discriminate.
    + exists err. split; [exact H1 | exact H2].
Defined.

(* ================================================================== *)
(** * The CSRF token (parser.go) *)

(** C6, as stated, fails: on a page where the first input named csrf_token
    in the document carries the value A and the pattern over the raw text
    finds B, the search of the document would give A, and the function
    returns B. *)
Lemma ExtractCSRFToken_not_document_first :
  parser.csrfInputValue (goquery.startTags scenario.twoTokens) = Some "A" /\
  parser.csrfRegexFind scenario.twoTokens = Some "B" /\
  parser.ExtractCSRFToken goquery.startTags scenario.twoTokens = inl "B".
Proof. repeat split; vm_compute; reflexivity. Qed.

(** C6, amended. The pattern over the raw text is tried first and its
    group is the result; only when it finds nothing is the document
    searched for the input named csrf_token, whose value is the result when
    it is not empty; the not-found error is returned exactly when neither
    gives a value. *)
Theorem ExtractCSRFToken_regex_first
  (NewDocument : string -> goquery.Document) (html : string) :
  (forall v, parser.csrfRegexFind html = Some v ->
             parser.ExtractCSRFToken NewDocument html = inl v) /\
  (parser.csrfRegexFind html = None ->
   forall v, parser.csrfInputValue (NewDocument html) = Some v ->
             parser.ExtractCSRFToken NewDocument html = inl v) /\
  (forall err, parser.ExtractCSRFToken NewDocument html = inr err ->
               err = errorString "csrf token not found") /\
  ((exists err, parser.ExtractCSRFToken NewDocument html = inr err) <->
   parser.csrfRegexFind html = None /\
   parser.csrfInputValue (NewDocument html) = None).
Proof.
  unfold parser.ExtractCSRFToken.
  destruct (parser.csrfRegexFind html) as [r|];
    [|destruct (parser.csrfInputValue (NewDocument html)) as [d|]].
  - split; [congruence|]. split; [discriminate|]. split; [discriminate|].
    split; [intros [err E]; discriminate | intros [E _]; discriminate].
  - split; [discriminate|]. split; [congruence|]. split; [discriminate|].
    split; [intros [err E]; discriminate | intros [_ E]; discriminate].
  - split; [discriminate|]. split; [discriminate|]. split; [congruence|].
    split; [now split | intros _; eexists; reflexivity].
Qed.

Lemma ExtractCSRFToken_regex_first_witness :
  parser.ExtractCSRFToken goquery.startTags scenario.twoTokens = inl "B" /\
  parser.ExtractCSRFToken goquery.startTags scenario.valueFirst = inl "A" /\
  (exists err, parser.ExtractCSRFToken goquery.startTags scenario.noToken = inr err).
Proof.
  split; [|split].
  - apply (proj1 (ExtractCSRFToken_regex_first goquery.startTags scenario.twoTokens)).
    vm_compute; reflexivity.
  - apply (proj1 (proj2 (ExtractCSRFToken_regex_first
                           goquery.startTags scenario.valueFirst)));
      vm_compute; reflexivity.
  - apply (proj2 (proj2 (proj2 (ExtractCSRFToken_regex_first
                                  goquery.startTags scenario.noToken)))).
    split; vm_compute; reflexivity.
Defined.

(* ================================================================== *)
(** * Traces: what a computation adds to the trace *)

Section Emits.

Import bisleri.

Context {S : Type}.
Variable env : Env S.
Variable c : Client.

Lemma emits_ret {A : Type} (p : Event -> bool) (a : A) : emits (S := S) p (ret a).
Proof. intros w. exists []. split; [now rewrite app_nil_r | reflexivity]. Qed.

Lemma emits_bind {A B : Type} (p : Event -> bool) (m : M S A) (k : A -> M S B) :
  emits p m -> (forall a, emits p (k a)) -> emits p (bind m k).
Proof.
  intros Hm Hk w. unfold bind. destruct (Hm w) as (e1 & E1 & F1).
  destruct (m w) as [a w1]. simpl in E1.
  destruct (Hk a w1) as (e2 & E2 & F2).
  exists (e1 ++ e2)%list. split.
  - now rewrite E2, E1, app_assoc.
  - rewrite forallb_app. now rewrite F1, F2.
Qed.

Lemma emits_one {A : Type} (p : Event -> bool) (m : M S A) (e : Event) :
  (forall w, snd (snd (m w)) = (snd w ++ [e])%list) -> p e = true -> emits p m.
Proof.
  intros H He w. exists [e]. split; [apply H | simpl; now rewrite He].
Qed.

Lemma emits_log (p : Event -> bool) (e : Event) : p e = true -> emits (S := S) p (log e).
Proof. apply emits_one. reflexivity. Qed.

Lemma emits_pause (p : Event -> bool) (why : Pause) (ms : Z) :
  p (EvPause why ms) = true -> emits p (pause env why ms).
Proof.
  apply emits_one. intros w. unfold pause. now destruct (ctxDone env ms (fst w)).
Qed.

Lemma emits_roundTrip (p : Event -> bool) (req : Request) :
  (forall a, p (EvRequest req a) = true) -> emits p (roundTrip env req).
Proof.
  intros H w. unfold roundTrip. destruct (Do env req (fst w)) as [r s'].
  exists [EvRequest req r]. split; [reflexivity | simpl; now rewrite H].
Qed.

Lemma emits_promptCity (p : Event -> bool) (options : list string) :
  emits p (promptCity env options).
Proof.
  intros w. unfold promptCity. destruct (selectCity env options (fst w)).
  exists []. split; [simpl; now rewrite app_nil_r | reflexivity].
Qed.

Lemma emits_saveProfile (p : Event -> bool) (pr : store.Profile) :
  p (EvSaveProfile pr) = true -> emits p (saveProfile env pr).
Proof.
  apply emits_one. intros w. unfold saveProfile.
  now destruct (SaveProfile env pr (fst w)).
Qed.

Lemma emits_do (p : Event -> bool) (req : Request) :
  p (EvPause PauseThrottle (Throttle c)) = true ->
  (forall a, p (EvRequest req a) = true) ->
  emits p (do env c req).
Proof.
  intros Hp Hr. unfold do. destruct (Throttle c >? 0).
  - apply emits_bind; [now apply emits_pause|].
    intros [|]; [apply emits_ret | now apply emits_roundTrip].
  - now apply emits_roundTrip.
Qed.

Lemma emits_fetchLoop (p : Event -> bool) (path prefix : string) :
  (forall why ms, why <> PauseConfirm -> p (EvPause why ms) = true) ->
  (forall a, p (EvRequest (get path) a) = true) ->
  forall n attempt lastErr, emits p (fetchLoop env c path prefix n attempt lastErr).
Proof.
  intros Hp Hr. induction n as [|n IH]; intros attempt lastErr.
  - apply emits_ret.
  - cbn [fetchLoop].
    assert (Hnext : forall le,
      emits p (if attempt <? maxFetchAttempts
               then bind (pause env PauseBackoff (attempt * 1000))
                      (fun done => if done then ret (inr ctxErr)
                                   else fetchLoop env c path prefix n (attempt + 1) le)
               else fetchLoop env c path prefix n (attempt + 1) le)).
    { intros le. destruct (attempt <? maxFetchAttempts); [|apply IH].
      apply emits_bind; [apply emits_pause, Hp; discriminate|].
      intros [|]; [apply emits_ret | apply IH]. }
    apply emits_bind; [apply emits_do; [apply Hp; discriminate | apply Hr]|].
    intros [resp|err]; [|apply Hnext].
    destruct (validateResponsePath resp prefix); [apply emits_ret|].
    destruct (StatusCode resp >=? 400); [|apply emits_ret].
    destruct (_ || _)%bool; [apply Hnext | apply emits_ret].
Qed.

Lemma emits_FetchCartPage (p : Event -> bool) :
  p (EvCall CallFetchCartPage) = true ->
  (forall why ms, why <> PauseConfirm -> p (EvPause why ms) = true) ->
  (forall a, p (EvRequest (get "/mycart") a) = true) ->
  emits p (FetchCartPage env c).
Proof.
  intros H1 H2 H3. unfold FetchCartPage.
  apply emits_bind; [now apply emits_log|]. intros _.
  now apply emits_fetchLoop.
Qed.

Lemma emits_FetchPaymentPage (p : Event -> bool) :
  p (EvCall CallFetchPaymentPage) = true ->
  (forall why ms, why <> PauseConfirm -> p (EvPause why ms) = true) ->
  (forall a, p (EvRequest (get "/checkout?stage=payment") a) = true) ->
  emits p (FetchPaymentPage env c).
Proof.
  intros H1 H2 H3. unfold FetchPaymentPage.
  apply emits_bind; [now apply emits_log|]. intros _.
  now apply emits_fetchLoop.
Qed.

Lemma emits_VerifyAuthenticated (p : Event -> bool) :
  p (EvCall CallVerifyAuthenticated) = true ->
  (forall why ms, why <> PauseConfirm -> p (EvPause why ms) = true) ->
  (forall a, p (EvRequest (get "/my-orders") a) = true) ->
  emits p (VerifyAuthenticated env c).
Proof.
  intros H1 H2 H3. unfold VerifyAuthenticated.
  apply emits_bind; [now apply emits_log|]. intros _.
  apply emits_bind; [apply emits_do; [apply H2; discriminate | apply H3]|].
  intros [resp|err]; [|apply emits_ret].
  destruct (StatusCode resp >=? 400); [apply emits_ret|].
  destruct (validateResponsePath resp "/my-orders"); [apply emits_ret|].
  destruct (String.eqb (Body resp) ""); apply emits_ret.
Qed.

Lemma emits_SetCityLocation (p : Event -> bool) (city : string) :
  p (EvCall (CallSetCityLocation city)) = true ->
  (forall why ms, why <> PauseConfirm -> p (EvPause why ms) = true) ->
  (forall form a, p (EvRequest (post setCityPath form) a) = true) ->
  emits p (SetCityLocation env c city).
Proof.
  intros H1 H2 H3. unfold SetCityLocation.
  apply emits_bind; [now apply emits_log|]. intros _.
  destruct (String.eqb (strings.TrimSpace city) ""); [apply emits_ret|].
  apply emits_bind; [apply emits_do; [apply H2; discriminate | apply H3]|].
  intros [resp|err]; [|apply emits_ret].
  destruct (StatusCode resp >=? 400); apply emits_ret.
Qed.

(** The trace of a computation that starts from an empty trace. *)
Lemma emits_trace {A : Type} (p : Event -> bool) (m : M S A) (s : S) :
  emits p m -> forallb p (trace m s) = true.
Proof.
  intros H. unfold trace. destruct (H (s, [])) as (evs & E & F).
  now rewrite E.
Qed.

End Emits.

(* ================================================================== *)
(** * Placing the order (checkout.go, main.go) *)

Section PlaceOrderFacts.

Import bisleri.








End PlaceOrderFacts.

Section PlaceOrderFlow.

Import bisleri.

Context {S : Type}.
Variable env : Env S.
Variable client : Client.



Lemma run_bind {A B : Type} (m : M S A) (k : A -> M S B) (w : World S) :
  bind m k w = k (fst (m w)) (snd (m w)).
Proof. unfold bind. now destruct (m w). Qed.




End PlaceOrderFlow.



(* ================================================================== *)
(** * The cart stage of the order command (main.go) *)

Section CartFacts.

Import bisleri.

Context {S : Type}.
Variable env : Env S.
Variable client : Client.
Variable x : parser.Extractor.

Lemma emits_resolveCity (p : Event -> bool) (profile : store.Profile)
  (options : list string) :
  emits p (main.resolveCity env profile options).
Proof.
  unfold main.resolveCity. destruct options as [|o options].
  - destruct (negb _); [apply emits_ret|].
    destruct (store.Address_ profile) as [a|]; [|apply emits_promptCity].
    destruct (negb _); [apply emits_ret | apply emits_promptCity].
  - destruct (main.matchCityOption _ _) as [m [|]]; [apply emits_ret|].
    destruct (match store.Address_ profile with Some _ => _ | None => _ end)
      as [m' [|]]; [apply emits_ret | apply emits_promptCity].
Qed.

Lemma emits_ensureCityLocation (profile : store.Profile) (cartHTML : string) :
  emits noCartWrite (main.ensureCityLocation env client x profile cartHTML).
Proof.
  unfold main.ensureCityLocation.
  destruct (parser.ExtractSelectedCity x cartHTML) as [[|c0 city] [|]];
    try apply emits_ret;
    (apply emits_bind; [apply emits_resolveCity|]; intros city';
     destruct (String.eqb city' ""); [apply emits_ret|];
     apply emits_bind; [apply emits_SetCityLocation; intros; reflexivity|];
     intros [err|]; [apply emits_ret|];
     apply emits_bind; [now apply emits_saveProfile|]; intros _;
     apply emits_bind; [apply emits_FetchCartPage; intros; reflexivity|];
     intros [html|err]; apply emits_ret).
Qed.

(** The world after the session check, the fetch of the cart page and the
    choice of the city holds no cart write. *)
Lemma prepared_without_writes (profile profile' : store.Profile)
  (s : S) (w1 w2 w3 : World S) (html0 html : string) (e : option error) :
  VerifyAuthenticated env client (s, []) = (None, w1) ->
  FetchCartPage env client w1 = (inl html0, w2) ->
  main.ensureCityLocation env client x profile html0 w2 = ((html, profile', e), w3) ->
  forallb noCartWrite (snd w3) = true.
Proof.
  intros H1 H2 H3.
  destruct (emits_VerifyAuthenticated env client noCartWrite eq_refl
              (fun _ _ _ => eq_refl) (fun _ => eq_refl) (s, [])) as (e1 & E1 & F1).
  destruct (emits_FetchCartPage env client noCartWrite eq_refl
              (fun _ _ _ => eq_refl) (fun _ => eq_refl) w1) as (e2 & E2 & F2).
  destruct (emits_ensureCityLocation profile html0 w2) as (e3 & E3 & F3).
  rewrite H1 in E1. rewrite H2 in E2. rewrite H3 in E3. cbn [fst snd] in *.
  rewrite E3, E2, E1. cbn [app]. rewrite !forallb_app. now rewrite F1, F2, F3.
Qed.

Lemma runOrderCart_prepared (profile profile' : store.Profile) (quantity : Z)
  (allowExtra : bool) (s : S) (w1 w2 w3 : World S) (html0 html : string) :
  VerifyAuthenticated env client (s, []) = (None, w1) ->
  FetchCartPage env client w1 = (inl html0, w2) ->
  main.ensureCityLocation env client x profile html0 w2 = ((html, profile', None), w3) ->
  main.runOrderCart env client x profile quantity allowExtra (s, [])
  = (let '(e, w) := main.reconcileCart env client x html quantity allowExtra w3 in
     ((profile', e), w)).
Proof.
  intros H1 H2 H3. unfold main.runOrderCart.
  rewrite run_bind, H1. cbn [fst snd].
  rewrite run_bind, H2. cbn [fst snd].
  rewrite run_bind, H3. cbn [fst snd].
  unfold bind, ret.
  now destruct (main.reconcileCart env client x html quantity allowExtra w3).
Qed.

Lemma filterExtraItems_names (items : list parser.CartItem) (item : parser.CartItem) :
  In item items -> offending item ->
  In (shownName item) (main.filterExtraItems items main.productID20L).
Proof.
  unfold offending, shownName. induction items as [|i items IH]; intros Hin Hoff;
    [contradiction|].
  cbn [main.filterExtraItems]. destruct Hin as [->|Hin].
  - destruct (String.eqb _ ""); [now left|]. rewrite Hoff. now left.
  - specialize (IH Hin Hoff).
    destruct (String.eqb (strings.ToLower (strings.TrimSpace (parser.ProductID i))) "");
      [now right|].
    destruct (negb _); [now right | exact IH].
Qed.

Lemma prefix_refl (s : string) : String.prefix s s = true.
Proof. rewrite <- (append_nil_r s) at 2. apply prefix_app. Qed.

Lemma In_Join (l : list string) (sep e : string) :
  In e l -> strings.Contains (strings.Join l sep) e = true.
Proof.
  induction l as [|a l IH]; intros Hin; [contradiction|].
  destruct l as [|b l].
  - destruct Hin as [->|[]]. apply Contains_here, prefix_refl.
  - change (strings.Join (a :: b :: l) sep) with (a ++ sep ++ strings.Join (b :: l) sep).
    destruct Hin as [->|Hin].
    + apply Contains_app_l, Contains_here, prefix_refl.
    + apply Contains_app_r, Contains_app_r. now apply IH.
Qed.

Lemma extraItemsError_names (extras : list string) (e : string) :
  In e extras -> strings.Contains (Error (main.extraItemsError extras)) e = true.
Proof.
  intros Hin. unfold main.extraItemsError. cbn [Error].
  apply Contains_app_r, Contains_app_l. now apply In_Join.
Qed.

Lemma cartUnreadable_items (html : string) (items : list parser.CartItem) :
  items <> [] -> main.cartUnreadable x html items = false.
Proof.
  intros Hne. unfold main.cartUnreadable.
  destruct (parser.ExtractCartCount x html) as [count [|]]; [|reflexivity].
  destruct items; [now elim Hne|]. apply andb_false_r.
Qed.

(** C3, amended. Whenever the cart page was fetched (and the delivery city
    settled without error) and it shows a line that is neither the 20L
    product, nor its empty jar, nor its deposit, and --allow-extra is unset,
    the run ends there with the error that lists the extra lines, each by
    its product identifier (a blank identifier as unknown-item), and up to
    that point no add-product or update-quantity call or request was
    made. *)
Theorem runOrderCart_refuses_extra_items (profile profile' : store.Profile)
  (quantity : Z) (s : S) (w1 w2 w3 : World S) (html0 html : string) :
  VerifyAuthenticated env client (s, []) = (None, w1) ->
  FetchCartPage env client w1 = (inl html0, w2) ->
  main.ensureCityLocation env client x profile html0 w2 = ((html, profile', None), w3) ->
  (exists item, In item (parser.ExtractCartItems x html) /\ offending item) ->
  exists err,
    main.runOrderCart env client x profile quantity false (s, [])
    = ((profile', Some err), w3) /\
    err = main.extraItemsError
            (main.filterExtraItems (parser.ExtractCartItems x html) main.productID20L) /\
    (forall item, In item (parser.ExtractCartItems x html) -> offending item ->
       strings.Contains (Error err) (shownName item) = true) /\
    forallb noCartWrite (snd w3) = true.
Proof.
  intros H1 H2 H3 (item & Hin & Hoff).
  eexists. split; [|split; [reflexivity|split]].
  - rewrite (runOrderCart_prepared _ _ _ _ _ _ _ _ _ _ H1 H2 H3).
    unfold main.reconcileCart.
    rewrite cartUnreadable_items by (intros E; rewrite E in Hin; contradiction).
    pose proof (filterExtraItems_names _ _ Hin Hoff) as Hn.
    destruct (main.filterExtraItems (parser.ExtractCartItems x html) main.productID20L)
      as [|e extras]; [contradiction|]. reflexivity.
  - intros i Hi Ho. apply extraItemsError_names. now apply filterExtraItems_names.
  - exact (prepared_without_writes _ _ _ _ _ _ _ _ _ H1 H2 H3).
Qed.

Lemma findCartItem_found (items : list parser.CartItem) (pid uuid : string) (q : Z) :
  parser.findCartItem items pid = (uuid, q, true) -> items <> [].
Proof. destruct items; [discriminate | discriminate]. Qed.

(** C9, amended. Whenever the cart page was fetched (and the delivery city
    settled without error) and it shows the 20L product, with its line
    identifier, at the quantity asked for, the run makes no add-product and
    no update-quantity call or request: the cart stage adds nothing to the
    trace, and ends without error or, when other lines are present and
    --allow-extra is unset, with the error that lists them. *)
Theorem runOrderCart_leaves_matching_line (profile profile' : store.Profile)
  (quantity : Z) (allowExtra : bool) (s : S) (w1 w2 w3 : World S)
  (html0 html uuid : string) :
  VerifyAuthenticated env client (s, []) = (None, w1) ->
  FetchCartPage env client w1 = (inl html0, w2) ->
  main.ensureCityLocation env client x profile html0 w2 = ((html, profile', None), w3) ->
  parser.ExtractCartItem x html main.productID20L = (uuid, quantity, true) ->
  uuid <> "" ->
  exists r,
    main.runOrderCart env client x profile quantity allowExtra (s, [])
    = ((profile', r), w3) /\
    forallb noCartWrite (snd w3) = true /\
    (r = None \/
     (allowExtra = false /\
      r = Some (main.extraItemsError
                  (main.filterExtraItems (parser.ExtractCartItems x html)
                     main.productID20L)))).
Proof.
  intros H1 H2 H3 Hitem Hu.
  rewrite (runOrderCart_prepared _ _ _ _ _ _ _ _ _ _ H1 H2 H3).
  unfold main.reconcileCart.
  rewrite cartUnreadable_items by (eapply findCartItem_found; exact Hitem).
  rewrite Hitem.
  destruct (negb (Nat.eqb (List.length (main.filterExtraItems
              (parser.ExtractCartItems x html) main.productID20L)) 0) && negb allowExtra)%bool
    eqn:E.
  - eexists. split; [reflexivity|].
    split; [exact (prepared_without_writes _ _ _ _ _ _ _ _ _ H1 H2 H3)|].
    right. apply andb_true_iff in E. destruct E as [_ E].
    apply negb_true_iff in E. now split.
  - destruct uuid as [|u0 u]; [now elim Hu|].
    rewrite Z.eqb_refl. cbn [negb]. eexists. split; [reflexivity|].
    split; [exact (prepared_without_writes _ _ _ _ _ _ _ _ _ H1 H2 H3) | now left].
Qed.

(** C2. When the session check reports the lost session, the order run
    returns that error with the world as the check left it: no question to
    the operator, no new login, no second attempt.  The same holds when the
    fetch of the cart page reports it. *)
Theorem runOrderCart_session_loss_ends_run (profile : store.Profile)
  (quantity : Z) (allowExtra : bool) (s : S) :
  (forall err w1,
     VerifyAuthenticated env client (s, []) = (Some err, w1) ->
     isNotAuthenticated err = true ->
     main.runOrderCart env client x profile quantity allowExtra (s, [])
     = ((profile, Some err), w1)) /\
  (forall err w1 w2,
     VerifyAuthenticated env client (s, []) = (None, w1) ->
     FetchCartPage env client w1 = (inr err, w2) ->
     isNotAuthenticated err = true ->
     main.runOrderCart env client x profile quantity allowExtra (s, [])
     = ((profile, Some err), w2)).
Proof.
  split.
  - intros err w1 H1 _. unfold main.runOrderCart. now rewrite run_bind, H1.
  - intros err w1 w2 H1 H2 Hs. unfold main.runOrderCart.
    rewrite run_bind, H1. cbn [fst snd]. rewrite run_bind, H2. cbn [fst snd].
    now rewrite Hs.
Qed.

End CartFacts.

(** C3, as stated, fails when the cart page cannot be fetched: the cart
    holds a one-litre line next to two 20L jars and --allow-extra is unset,
    the three attempts to fetch the cart page are answered with status 503,
    and the run adds the product before the first poll of the cart reads
    the extra line and ends the run with the error that names it. *)
Lemma runOrderCart_adds_before_refusing :
  let run := main.runOrderCart scenario.shopEnv bisleri.NewClient scenario.reader
               scenario.asha 2 false (scenario.cartDown true, []) in
  scenario.withLitre (scenario.cartDown true) = true /\
  snd (fst run) = Some (main.extraItemsError ["BIS-1LTR-12"]) /\
  In (bisleri.EvCall (bisleri.CallAddProduct main.productID20L 2)) (snd (snd run)) /\
  existsb cartWrite (snd (snd run)) = true /\
  forallb noCartWrite (snd (snd run)) = false.
Proof.
  vm_compute. split; [reflexivity|]. split; [reflexivity|].
  split; [|split; reflexivity].
  do 12 right. left. reflexivity.
Qed.

Lemma runOrderCart_refuses_extra_items_witness :
  exists err w3,
    main.runOrderCart scenario.shopEnv bisleri.NewClient scenario.reader
      scenario.asha 2 false (scenario.cartUp 2 true, [])
    = ((scenario.asha, Some err), w3) /\
    err = main.extraItemsError ["BIS-1LTR-12"] /\
    forallb noCartWrite (snd w3) = true.
Proof.
  destruct (runOrderCart_refuses_extra_items scenario.shopEnv bisleri.NewClient
              scenario.reader scenario.asha scenario.asha 2 (scenario.cartUp 2 true)
              _ _ _ _ _
              ltac:(vm_compute; reflexivity) ltac:(vm_compute; reflexivity)
              ltac:(vm_compute; reflexivity))
    as (err & H1 & H2 & _ & H4).
  - exists {| parser.ProductID := "BIS-1LTR-12"; parser.UUID := "bbbb2222";
              parser.Quantity := 1 |}.
    split; [vm_compute; right; left; reflexivity | vm_compute; reflexivity].
  - exists err. eexists. split; [exact H1|]. split; [|exact H4].
    rewrite H2. vm_compute. reflexivity.
Defined.

(** C9, as stated, fails when the cart page cannot be fetched: the cart
    holds the 20L product at quantity 2, the order asks for 2, the three
    attempts to fetch the cart page are answered with status 503, and the
    run adds the product and then sets the quantity back. *)
Lemma runOrderCart_adds_to_matching_cart :
  let run := main.runOrderCart scenario.shopEnv bisleri.NewClient scenario.reader
               scenario.asha 2 false (scenario.cartDown false, []) in
  scenario.jars (scenario.cartDown false) = 2 /\
  parser.ExtractCartItem scenario.reader (scenario.cartPage 2 false) main.productID20L
  = ("aaaa1111", 2, true) /\
  snd (fst run) = None /\
  In (bisleri.EvCall (bisleri.CallAddProduct main.productID20L 2)) (snd (snd run)) /\
  In (bisleri.EvCall (bisleri.CallUpdateQuantity main.productID20L "aaaa1111" 2))
     (snd (snd run)).
Proof.
  vm_compute. split; [reflexivity|]. split; [reflexivity|]. split; [reflexivity|].
  split; [do 12 right; left; reflexivity | do 18 right; left; reflexivity].
Qed.

Lemma runOrderCart_leaves_matching_line_witness :
  exists w3,
    main.runOrderCart scenario.shopEnv bisleri.NewClient scenario.reader
      scenario.asha 2 false (scenario.cartUp 2 false, [])
    = ((scenario.asha, None), w3) /\
    forallb noCartWrite (snd w3) = true.
Proof.
  destruct (runOrderCart_leaves_matching_line scenario.shopEnv bisleri.NewClient
              scenario.reader scenario.asha scenario.asha 2 false
              (scenario.cartUp 2 false) _ _ _ _ _ "aaaa1111"
              ltac:(vm_compute; reflexivity) ltac:(vm_compute; reflexivity)
              ltac:(vm_compute; reflexivity) ltac:(vm_compute; reflexivity)
              ltac:(discriminate))
    as (r & H1 & H2 & [->|[_ ->]]).
  - eexists. split; [exact H1 | exact H2].
  - exfalso. vm_compute in H1. discriminate.
Defined.

Lemma runOrderCart_session_loss_ends_run_witness :
  main.runOrderCart (scenario.staticEnv (fun _ => inl scenario.landedOnLogin))
    bisleri.NewClient scenario.reader scenario.asha 2 false (tt, [])
  = ((scenario.asha, Some ErrNotAuthenticated),
     (tt, [bisleri.EvCall bisleri.CallVerifyAuthenticated;
           bisleri.EvPause bisleri.PauseThrottle 900;
           bisleri.EvRequest (bisleri.get "/my-orders") (inl scenario.landedOnLogin)])).
Proof.
  apply (proj1 (runOrderCart_session_loss_ends_run
                  (scenario.staticEnv (fun _ => inl scenario.landedOnLogin))
                  bisleri.NewClient scenario.reader scenario.asha 2 false tt));
    vm_compute; reflexivity.
Defined.

(* ================================================================== *)
(** * The payment stage of the order command (main.go) *)

Section PaymentFacts.

Import bisleri.

Context {S : Type}.
Variable env : Env S.
Variable client : Client.
Variable x : parser.Extractor.

Lemma ParseINRAmount_NaN :
  parser.ParseINRAmount (parser.rupee ++ "NaN") = (strconv.NaN, true).
Proof. vm_compute. reflexivity. Qed.

Lemma ltb_NaN_r (f : strconv.float64) : strconv.ltb f strconv.NaN = false.
Proof. destruct f; reflexivity. Qed.

(** A total that reads as NaN passes the check of the total and of the
    balance, whatever the balance. *)
Lemma checkTotalAndBalance_passes_NaN (debug : bool) (html : string) (w : World S) :
  parser.ExtractOrderTotal x html = (parser.rupee ++ "NaN", true) ->
  main.checkTotalAndBalance x debug html w = (None, w).
Proof.
  intros H. unfold main.checkTotalAndBalance. rewrite H, ParseINRAmount_NaN.
  change (strconv.leb strconv.NaN strconv.zero) with false. cbv iota.
  destruct (parser.ExtractWalletBalance x html) as [balance [|]]; [|reflexivity].
  destruct (parser.ParseINRAmount balance) as [bal [|]]; [|reflexivity].
  now rewrite ltb_NaN_r.
Qed.

Lemma emits_SubmitPayment (shipmentUUID token : string) (address : store.Address) :
  emits anyEvent (SubmitPayment env client shipmentUUID token address).
Proof.
  unfold SubmitPayment. apply emits_bind; [now apply emits_log|]. intros _.
  destruct (_ || _)%bool; [apply emits_ret|].
  apply emits_bind; [apply emits_do; reflexivity|].
  intros [resp|err]; [|apply emits_ret].
  destruct (StatusCode resp >=? 400); apply emits_ret.
Qed.

Lemma emits_PlaceOrder : emits anyEvent (PlaceOrder env client).
Proof.
  unfold PlaceOrder. apply emits_bind; [now apply emits_log|]. intros _.
  destruct (Throttle client >? 0).
  - apply emits_bind; [now apply emits_pause|].
    intros [|]; [apply emits_ret|].
    apply emits_bind; [now apply emits_roundTrip | intros; apply emits_ret].
  - apply emits_bind; [now apply emits_roundTrip | intros; apply emits_ret].
Qed.

Lemma emits_placeAndRecord (profile : store.Profile) :
  emits anyEvent (main.placeAndRecord env client profile).
Proof.
  unfold main.placeAndRecord. apply emits_bind; [apply emits_PlaceOrder|].
  intros [id [err|]]; [destruct id; apply emits_ret|].
  destruct id; [apply emits_ret|].
  apply emits_bind; [now apply emits_saveProfile|]. intros _.
  apply emits_bind; [apply emits_FetchPaymentPage; intros; reflexivity
                    | intros; apply emits_ret].
Qed.

Lemma bind_assoc {A B C : Type} (m : M S A) (f : A -> M S B) (g : B -> M S C)
  (w : World S) :
  bind (bind m f) g w = bind m (fun a => bind (f a) g) w.
Proof. unfold bind. destruct (m w) as [a w1]. reflexivity. Qed.

(** An event that was logged stays in the trace. *)
Lemma In_after_log {A : Type} (e : Event) (m : M S A) (w : World S) :
  emits anyEvent m -> In e (snd (snd (bind (log e) (fun _ => m) w))).
Proof.
  intros H. rewrite run_bind. unfold log. cbn [fst snd].
  destruct (H (fst w, (snd w ++ [e])%list)) as (evs & E & _). rewrite E.
  cbn [snd]. apply in_or_app. left. apply in_or_app. right. now left.
Qed.

(** C1. The code lets a total that is not a number through: when the
    payment page was fetched and its total reads as the rupee sign followed
    by NaN, the payment is submitted, with any wallet balance or none. *)
Theorem runOrderPayment_submits_for_NaN_total (profile : store.Profile)
  (shipmentUUID csrfToken : string) (address : store.Address) (debug : bool)
  (s : S) (w1 : World S) (html : string) :
  FetchPaymentPage env client (s, []) = (inl html, w1) ->
  parser.ExtractOrderTotal x html = (parser.rupee ++ "NaN", true) ->
  exists token,
    In (EvCall (CallSubmitPayment shipmentUUID token))
       (trace (main.runOrderPayment env client x profile shipmentUUID csrfToken
                 address debug) s).
Proof.
  intros H1 H2. unfold trace, main.runOrderPayment.
  rewrite run_bind, H1. cbn [fst snd].
  rewrite run_bind, (checkTotalAndBalance_passes_NaN debug html w1 H2). cbn [fst snd].
  eexists. unfold SubmitPayment. rewrite bind_assoc.
  apply In_after_log.
  apply emits_bind.
  - destruct (_ || _)%bool; [apply emits_ret|].
    apply emits_bind; [apply emits_do; reflexivity|].
    intros [resp|err]; [|apply emits_ret].
    destruct (StatusCode resp >=? 400); apply emits_ret.
  - intros [err|]; [apply emits_ret | apply emits_placeAndRecord].
Qed.

End PaymentFacts.

(** With a total of NaN rupees and a balance of 100 rupees on the payment
    page, the payment request is sent and the order is placed. *)
Lemma runOrderPayment_submits_for_NaN_total_witness :
  let run := main.runOrderPayment
               (scenario.staticEnv
                  (scenario.paymentSite (parser.rupee ++ "NaN") (parser.rupee ++ "100")))
               bisleri.NewClient scenario.reader scenario.asha
               "0123456789abcdef" "tok-ship" scenario.home false (tt, []) in
  (exists token,
     In (bisleri.EvCall (bisleri.CallSubmitPayment "0123456789abcdef" token))
        (snd (snd run))) /\
  fst run = (store.withLastOrder scenario.asha {| store.OrderID := "BIS123" |}, None) /\
  existsb (fun ev => match ev with
                     | bisleri.EvRequest r (inl _) =>
                         String.eqb (bisleri.URL r) bisleri.submitPaymentPath
                     | _ => false
                     end) (snd (snd run)) = true.
Proof.
  split; [|split; vm_compute; reflexivity].
  eapply (runOrderPayment_submits_for_NaN_total
            (scenario.staticEnv
               (scenario.paymentSite (parser.rupee ++ "NaN") (parser.rupee ++ "100")))
            bisleri.NewClient scenario.reader scenario.asha
            "0123456789abcdef" "tok-ship" scenario.home false tt
            _ (scenario.paymentPage (parser.rupee ++ "NaN") (parser.rupee ++ "100")));
    vm_compute; reflexivity.
Defined.

(** The check does its work on the totals of the specification's example:
    250 rupees to pay from a wallet of 100 ends the run before the payment,
    and nothing but the fetch of the payment page was done. *)
Lemma runOrderPayment_insufficient_balance :
  let run := main.runOrderPayment
               (scenario.staticEnv
                  (scenario.paymentSite (parser.rupee ++ "250") (parser.rupee ++ "100")))
               bisleri.NewClient scenario.reader scenario.asha
               "0123456789abcdef" "tok-ship" scenario.home false (tt, []) in
  snd (fst run)
  = Some (errorString ("insufficient wallet balance (" ++ parser.rupee ++ "100"
                       ++ ") for order total (" ++ parser.rupee ++ "250" ++ ")")) /\
  List.length (snd (snd run)) = 3%nat.
Proof. vm_compute. split; reflexivity. Qed.

(* ================================================================== *)
(** * Confirming the cart after an add (main.go) *)

Section ConfirmFacts.

Import bisleri.

Context {S : Type}.
Variable env : Env S.
Variable client : Client.
Variable x : parser.Extractor.

Lemma marks_app (a b : list Event) : marks (a ++ b) = (marks a ++ marks b)%list.
Proof. apply filter_app. Qed.

Lemma marks_quiet (evs : list Event) : forallb noMark evs = true -> marks evs = [].
Proof.
  induction evs as [|e evs IH]; [reflexivity|]. cbn [forallb marks filter].
  intros H. apply andb_true_iff in H. destruct H as [H1 H2].
  unfold noMark in H1. apply negb_true_iff in H1. rewrite H1. now apply IH.
Qed.

Lemma emits_UpdateQuantity (p : Event -> bool) (pid uuid : string) (q : Z) :
  p (EvCall (CallUpdateQuantity pid uuid q)) = true ->
  (forall why ms, why <> PauseConfirm -> p (EvPause why ms) = true) ->
  (forall a, p (EvRequest (get (updateQuantityPath pid uuid q)) a) = true) ->
  emits p (UpdateQuantity env client pid uuid q).
Proof.
  intros H1 H2 H3. unfold UpdateQuantity.
  apply emits_bind; [now apply emits_log|]. intros _.
  apply emits_bind; [apply emits_do; [apply H2; discriminate | apply H3]|].
  intros [resp|err]; [|apply emits_ret].
  destruct (StatusCode resp >=? 400); apply emits_ret.
Qed.

Lemma noMark_pause (why : Pause) (ms : Z) :
  why <> PauseConfirm -> noMark (EvPause why ms) = true.
Proof. destruct why; intros H; [reflexivity | reflexivity | now elim H]. Qed.

Lemma quiet_UpdateQuantity (pid uuid : string) (q : Z) :
  emits noMark (UpdateQuantity env client pid uuid q).
Proof.
  apply emits_UpdateQuantity; [reflexivity | apply noMark_pause | intros; reflexivity].
Qed.

(** One turn: the poll, and after it nothing that counts. *)
Lemma confirmAttempt_marks (pid : string) (q : Z) (allowExtra : bool)
  (lastErr : option error) (w : World S) :
  exists evs,
    snd (snd (main.confirmAttempt env client x pid q allowExtra lastErr w))
    = (snd w ++ evs)%list /\
    marks evs = [poll].
Proof.
  assert (H : emits noMark
    (bind (fetchPageWithRetry env client "/mycart" "/mycart")
       (fun r =>
          match r with
          | inr err =>
              if isNotAuthenticated err then ret (main.Return (Some err))
              else ret (main.Continue (Some err))
          | inl cartHTML =>
              let items := parser.ExtractCartItems x cartHTML in
              if main.cartUnreadable x cartHTML items
              then ret (main.Continue (Some (errorString "unable to parse cart items")))
              else
                let extraItems := main.filterExtraItems items pid in
                if (negb (Nat.eqb (List.length extraItems) 0) && negb allowExtra)%bool
                then ret (main.Return (Some (main.extraItemsError extraItems)))
                else
                  match parser.ExtractCartItem x cartHTML pid with
                  | (String u0 u, existingQty, true) =>
                      let uuid := String u0 u in
                      let rest (lastErr : option error) : M S main.Outcome :=
                        if existingQty =? q then ret (main.Return None)
                        else
                          bind (UpdateQuantity env client pid uuid q)
                            (fun e =>
                               match e with
                               | Some err => ret (main.Continue (Some err))
                               | None =>
                                   ret (main.Continue (Some (errorString
                                     ("cart quantity was " ++ itoa existingQty
                                      ++ ", updated to " ++ itoa q))))
                               end) in
                      if existingQty =? 0 then
                        bind (UpdateQuantity env client pid uuid q)
                          (fun e =>
                             match e with
                             | Some err => rest (Some err)
                             | None => ret (main.Return None)
                             end)
                      else rest lastErr
                  | _ =>
                      match parser.ExtractCartCount x cartHTML with
                      | (0, true) =>
                          ret (main.Continue (Some (errorString "cart still empty")))
                      | _ =>
                          ret (main.Continue
                                 (Some (errorString "product not yet visible in cart")))
                      end
                  end
          end))).
  { apply emits_bind.
    - apply emits_fetchLoop; [apply noMark_pause | intros; reflexivity].
    - intros [html|err]; [|destruct (isNotAuthenticated err); apply emits_ret].
      cbv zeta. destruct (main.cartUnreadable _ _ _); [apply emits_ret|].
      destruct (_ && _)%bool; [apply emits_ret|].
      assert (Hrest : forall (uuid : string) (existingQty : Z),
        emits noMark
          (if existingQty =? q then ret (main.Return None)
           else bind (UpdateQuantity env client pid uuid q)
                  (fun e => match e with
                            | Some err => ret (main.Continue (Some err))
                            | None =>
                                ret (main.Continue (Some (errorString
                                  ("cart quantity was " ++ itoa existingQty
                                   ++ ", updated to " ++ itoa q))))
                            end))).
      { intros uuid existingQty. destruct (existingQty =? q); [apply emits_ret|].
        apply emits_bind; [apply quiet_UpdateQuantity|].
        intros [e|]; apply emits_ret. }
      destruct (parser.ExtractCartItem x html pid) as [[uuid existingQty] found].
      destruct uuid as [|u0 u]; destruct found;
        try (destruct (parser.ExtractCartCount x html) as [[|?|?] [|]]; apply emits_ret).
      destruct (existingQty =? 0); [|apply Hrest].
      apply emits_bind; [apply quiet_UpdateQuantity|].
      intros [e|]; [apply Hrest | apply emits_ret]. }
  unfold main.confirmAttempt, FetchCartPage. rewrite bind_assoc, run_bind.
  unfold log. cbn [fst snd].
  match goal with
  | |- context [snd (snd (?m ?w0))] => destruct (H w0) as (evs & E & F)
  end.
  exists (poll :: evs). split.
  - unfold fetchPageWithRetry in E |- *. rewrite E. cbn [snd].
    now rewrite <- app_assoc.
  - change (marks (poll :: evs)) with (poll :: marks evs).
    now rewrite (marks_quiet evs F).
Qed.

Lemma confirmLoop_marks (pid : string) (q : Z) (allowExtra : bool) :
  forall (n : nat) (attempt : Z) (lastErr : option error) (w : World S),
  exists evs rest,
    snd (snd (main.confirmLoop env client x pid q allowExtra n attempt lastErr w))
    = (snd w ++ evs)%list /\
    ideal n attempt = (marks evs ++ rest)%list.
Proof.
  induction n as [|n IH]; intros attempt lastErr w.
  - exists [], []. split; [cbn; now rewrite app_nil_r | reflexivity].
  - cbn [main.confirmLoop ideal]. rewrite run_bind.
    destruct (confirmAttempt_marks pid q allowExtra lastErr w) as (e1 & E1 & M1).
    destruct (main.confirmAttempt env client x pid q allowExtra lastErr w)
      as [o w1]. cbn [fst snd] in *.
    destruct o as [err|le].
    + exists e1. eexists. split; [exact E1|]. rewrite M1. reflexivity.
    + destruct (attempt <? main.maxAttempts).
      * rewrite run_bind. unfold pause. cbn [fst snd].
        destruct (ctxDone env (attempt * 500) (fst w1)) as [[|] s2]; cbn [fst snd].
        -- exists (e1 ++ [EvPause PauseConfirm (attempt * 500)])%list. eexists.
           split; [now rewrite E1, app_assoc|].
           rewrite marks_app, M1. reflexivity.
        -- destruct (IH (attempt + 1) le
                       (s2, (snd w1 ++ [EvPause PauseConfirm (attempt * 500)])%list))
             as (e2 & rest & E2 & M2).
           exists (e1 ++ EvPause PauseConfirm (attempt * 500) :: e2)%list, rest.
           split.
           ++ rewrite E2. cbn [snd]. rewrite E1, <- !app_assoc. reflexivity.
           ++ rewrite marks_app, M1, M2. reflexivity.
      * destruct (IH (attempt + 1) le w1) as (e2 & rest & E2 & M2).
        exists (e1 ++ e2)%list, rest. split.
        -- rewrite E2, E1, app_assoc. reflexivity.
        -- rewrite marks_app, M1, M2. reflexivity.
Qed.

(** A poll that finds the product with the quantity read as zero. *)
Lemma confirmAttempt_zero (pid uuid page : string) (q : Z) (allowExtra : bool)
  (lastErr : option error) (w w1 : World S) :
  FetchCartPage env client w = (inl page, w1) ->
  main.cartUnreadable x page (parser.ExtractCartItems x page) = false ->
  (negb (Nat.eqb (List.length
           (main.filterExtraItems (parser.ExtractCartItems x page) pid)) 0)
   && negb allowExtra)%bool = false ->
  parser.ExtractCartItem x page pid = (uuid, 0, true) ->
  uuid <> "" ->
  (forall w2,
     UpdateQuantity env client pid uuid q w1 = (None, w2) ->
     main.confirmAttempt env client x pid q allowExtra lastErr w
     = (main.Return None, w2)) /\
  (forall err w2,
     UpdateQuantity env client pid uuid q w1 = (Some err, w2) ->
     q <> 0 ->
     exists le w3,
       main.confirmAttempt env client x pid q allowExtra lastErr w
       = (main.Continue (Some le), w3)).
Proof.
  intros H1 H2 H3 H4 Hu. destruct uuid as [|u0 u]; [now elim Hu|].
  unfold main.confirmAttempt. rewrite run_bind, H1. cbn [fst snd].
  rewrite H2, H3, H4. cbn [Z.eqb]. split.
  - intros w2 E. now rewrite run_bind, E.
  - intros err w2 E Hq. rewrite run_bind, E. cbn [fst snd].
    destruct q as [|p|p]; [now elim Hq| |]; rewrite run_bind;
      match goal with
      | |- context [UpdateQuantity ?a ?b ?c ?d ?e ?w] =>
          destruct (UpdateQuantity a b c d e w) as [[e'|] w3]
      end; eexists; eexists; reflexivity.
Qed.

(** C5, amended. After an add the cart is polled at most four times, with
    waits of 500, 1000 and 1500 milliseconds between the polls: the polls
    and waits of every run are an initial part of that schedule.  A poll
    that finds the product with a quantity read as zero is not a failure:
    it sends an update-quantity request for the quantity asked for, and
    when that request succeeds the cart counts as confirmed at once, with
    no further poll; only when it fails does the loop go on. *)
Theorem confirmCartQuantity_schedule_and_zero (pid : string) (q : Z)
  (allowExtra : bool) :
  (forall s, exists rest,
     schedule
     = (marks (trace (main.confirmCartQuantity env client x pid q allowExtra) s)
        ++ rest)%list) /\
  (forall uuid page lastErr w w1,
     FetchCartPage env client w = (inl page, w1) ->
     main.cartUnreadable x page (parser.ExtractCartItems x page) = false ->
     (negb (Nat.eqb (List.length
              (main.filterExtraItems (parser.ExtractCartItems x page) pid)) 0)
      && negb allowExtra)%bool = false ->
     parser.ExtractCartItem x page pid = (uuid, 0, true) ->
     uuid <> "" ->
     (forall w2,
        UpdateQuantity env client pid uuid q w1 = (None, w2) ->
        main.confirmAttempt env client x pid q allowExtra lastErr w
        = (main.Return None, w2)) /\
     (forall err w2,
        UpdateQuantity env client pid uuid q w1 = (Some err, w2) ->
        q <> 0 ->
        exists le w3,
          main.confirmAttempt env client x pid q allowExtra lastErr w
          = (main.Continue (Some le), w3))).
Proof.
  split.
  - intros s. unfold trace, main.confirmCartQuantity.
    destruct (confirmLoop_marks pid q allowExtra 4 1 None (s, []))
      as (evs & rest & E & M).
    exists rest. rewrite E. cbn [snd app]. exact M.
  - intros uuid page lastErr w w1. apply confirmAttempt_zero.
Qed.

End ConfirmFacts.

(** C5, as stated, fails: the first poll after the add finds the 20L line
    with its quantity read as zero; the loop does not poll again: it sends
    one update-quantity request and, that request answered, returns without
    error after that single poll. *)
Lemma confirmCartQuantity_zero_not_polled_again :
  let run := main.confirmCartQuantity scenario.shopEnv bisleri.NewClient
               scenario.reader main.productID20L 2 false
               (scenario.cartUp 0 false, []) in
  parser.ExtractCartItem scenario.reader (scenario.cartPage 0 false) main.productID20L
  = ("aaaa1111", 0, true) /\
  fst run = None /\
  marks (snd (snd run)) = [poll] /\
  In (bisleri.EvCall (bisleri.CallUpdateQuantity main.productID20L "aaaa1111" 2))
     (snd (snd run)).
Proof.
  vm_compute. repeat split. do 3 right. left. reflexivity.
Qed.

Lemma confirmCartQuantity_schedule_and_zero_witness :
  (exists rest,
     schedule
     = (marks (bisleri.trace
                 (main.confirmCartQuantity scenario.shopEnv bisleri.NewClient
                    scenario.reader main.productID20L 2 false)
                 (scenario.cartUp 0 false)) ++ rest)%list) /\
  (exists w2,
     main.confirmAttempt scenario.shopEnv bisleri.NewClient scenario.reader
       main.productID20L 2 false None (scenario.cartUp 0 false, [])
     = (main.Return None, w2)).
Proof.
  pose proof (confirmCartQuantity_schedule_and_zero scenario.shopEnv
                bisleri.NewClient scenario.reader main.productID20L 2 false)
    as [HA HB].
  split; [apply HA|].
  eexists.
  eapply (proj1 (HB "aaaa1111" (scenario.cartPage 0 false) None
                   (scenario.cartUp 0 false, []) _
                   ltac:(vm_compute; reflexivity) ltac:(vm_compute; reflexivity)
                   ltac:(vm_compute; reflexivity) ltac:(vm_compute; reflexivity)
                   ltac:(discriminate))).
  vm_compute. reflexivity.
Defined.

(* ================================================================== *)
(** * Amounts (parser.go) *)

Section RoundingFacts.






End RoundingFacts.

Section AmountFacts.


(** ** Cleaning only removes bytes *)






(** ** A text without a digit is no number *)




(** ** The sign of a parsed amount *)










(** ** Whole amounts, written in decimal *)
















End AmountFacts.



